(** * CalDAV bridge (app.py): a shallow embedding and its properties

    The bridge turns a handful of JSON routes into WebDAV/CalDAV requests
    (PROPFIND, REPORT, PUT, DELETE) and turns the multistatus answers back
    into small dictionaries.  This file embeds the routes of [app.py] as
    Rocq functions and proves the properties the specification states
    about them.

    Modelling conventions.
    - A Python [str] is a Rocq [string], one [ascii] per character; the
      helpers below ([strip], [upper], [replace], [startswith]) follow the
      Python methods on ASCII text.
    - [requests] and [xml.etree.ElementTree.fromstring] are libraries: the
      remote server is a transition function on an abstract world and the
      parser is a function from text to an optional tree.
    - A route is a computation in a small state-and-exception monad: the
      state is the world together with the log of requests sent so far, an
      exception is an [HTTPException] with its status and detail.  A raised
      exception keeps the state reached (a request that was sent stays
      sent). *)

From Stdlib Require Import String Ascii List ZArith Bool Lia.
Import ListNotations.
Open Scope string_scope.
Open Scope Z_scope.

Set Implicit Arguments.

(** ** Python string helpers *)

Module Py.

Definition LF : ascii := Ascii.ascii_of_nat 10.
Definition CR : ascii := Ascii.ascii_of_nat 13.
Definition CRLF : string := String CR (String LF "").

(** [bool(s)] for a string. *)
Definition truthy (s : string) : bool :=
  match s with "" => false | _ => true end.

(** [a or b] on strings. *)
Definition or_str (a b : string) : string := if truthy a then a else b.

(** [s.startswith(p)]. *)
Definition startswith (s p : string) : bool := String.prefix p s.

(** [c.isspace()] on the ASCII range. *)
Definition isspace (c : ascii) : bool :=
  let n := Ascii.nat_of_ascii c in
  ((9 <=? n) && (n <=? 13) || (28 <=? n) && (n <=? 32))%nat.

Fixpoint lstrip (s : string) : string :=
  match s with
  | "" => ""
  | String c s' => if isspace c then lstrip s' else s
  end.

Fixpoint rstrip (s : string) : string :=
  match s with
  | "" => ""
  | String c s' =>
      match rstrip s' with
      | "" => if isspace c then "" else String c ""
      | r => String c r
      end
  end.

(** [s.strip()]. *)
Definition strip (s : string) : string := rstrip (lstrip s).

(** [s.rstrip("/")]. *)
Fixpoint rstrip_slash (s : string) : string :=
  match s with
  | "" => ""
  | String c s' =>
      match rstrip_slash s' with
      | "" => if Ascii.eqb c "/" then "" else String c ""
      | r => String c r
      end
  end.

(** [c.upper()] on the ASCII range. *)
Definition upper_char (c : ascii) : ascii :=
  let n := Ascii.nat_of_ascii c in
  if ((97 <=? n) && (n <=? 122))%nat then Ascii.ascii_of_nat (n - 32) else c.

Fixpoint upper (s : string) : string :=
  match s with
  | "" => ""
  | String c s' => String (upper_char c) (upper s')
  end.

(** [s.replace(old, new)] for a non-empty [old]: occurrences are taken
    left to right and do not overlap.  [skip] counts the characters of a
    matched occurrence that are still to be dropped. *)
Fixpoint replace_from (old new : string) (skip : nat) (s : string) : string :=
  match s with
  | "" => ""
  | String c s' =>
      match skip with
      | S k => replace_from old new k s'
      | O =>
          if String.prefix old s
          then new ++ replace_from old new (String.length old - 1) s'
          else String c (replace_from old new 0 s')
      end
  end.

Definition replace (s old new : string) : string := replace_from old new 0 s.

(** [sep.join(lines)]. *)
Fixpoint join (sep : string) (lines : list string) : string :=
  match lines with
  | [] => ""
  | [l] => l
  | l :: ls => l ++ sep ++ join sep ls
  end.

(** [x in xs] for integers. *)
Definition in_Z (x : Z) (xs : list Z) : bool := existsb (Z.eqb x) xs.

End Py.

(** ** Configuration read from the environment *)

Record Config := {
  BASE_URL : option string;
  APPLE_ID : option string;
  APPLE_PW : option string;
  API_KEY : option string
}.

Definition opt_truthy (o : option string) : bool :=
  match o with Some s => Py.truthy s | None => false end.

(** [BASE = os.environ.get("BASE_URL", "https://caldav.icloud.com").rstrip("/")] *)
Definition BASE (cfg : Config) : string :=
  Py.rstrip_slash
    (match BASE_URL cfg with
     | Some u => u
     | None => "https://caldav.icloud.com"
     end).

(** ** Exceptions and the monad of routes *)

Record HTTPException := { exc_status : Z; exc_detail : string }.

Inductive Res (A : Type) : Type :=
| Ok (a : A)
| Raise (e : HTTPException).
Arguments Ok {A} a.
Arguments Raise {A} e.

Record Request := {
  method : string;
  url : string;
  headers : list (string * string);
  data : option string;
  auth : option string * option string
}.

Record Response := {
  status_code : Z;
  text : string;
  reason : string
}.

Inductive Outcome :=
| Responded (r : Response)
| RequestException (msg : string).

(** ** Element trees and the paths the routes use *)

(** An [xml.etree.ElementTree.Element] as far as the routes read it: the
    tag in Clark notation ([{namespace}local]), the text before the first
    child ([None] when there is none), and the children in document
    order. *)
#[warnings="-register-all"]
Inductive Element :=
| Elem (tag : string) (text : option string) (children : list Element).

Definition el_tag (e : Element) : string :=
  match e with Elem t _ _ => t end.
Definition el_text (e : Element) : option string :=
  match e with Elem _ x _ => x end.
Definition el_children (e : Element) : list Element :=
  match e with Elem _ _ cs => cs end.

(** [NS = {"d": "DAV:", "c": "urn:ietf:params:xml:ns:caldav"}] *)
Definition NS : list (string * string) :=
  [("d", "DAV:"); ("c", "urn:ietf:params:xml:ns:caldav")].

Definition clark (ns local : string) : string := "{" ++ ns ++ "}" ++ local.

Fixpoint ns_lookup (m : list (string * string)) (p : string) : string :=
  match m with
  | [] => ""
  | (k, v) :: m' => if String.eqb k p then v else ns_lookup m' p
  end.

(** A prefixed name [p:local] read with the [NS] map. *)
Definition pfx (p local : string) : string := clark (ns_lookup NS p) local.

(** One location step: [.//tag] (every element below the context node) or
    [tag] (the children of the context node). *)
Inductive Step :=
| Descendant (tag : string)
| Child (tag : string).

Definition Path := list Step.

(** [Element.iter()]: the element and everything below it, in document
    order. *)
Fixpoint iter (e : Element) : list Element :=
  match e with
  | Elem _ _ cs =>
      e :: (fix over (l : list Element) : list Element :=
              match l with
              | [] => []
              | c :: l' => (iter c ++ over l')%list
              end) cs
  end.

Definition descendants (e : Element) : list Element :=
  flat_map iter (el_children e).

Definition has_tag (t : string) (e : Element) : bool := String.eqb (el_tag e) t.

Definition select (s : Step) (ctx : list Element) : list Element :=
  match s with
  | Descendant t => flat_map (fun e => filter (has_tag t) (descendants e)) ctx
  | Child t => flat_map (fun e => filter (has_tag t) (el_children e)) ctx
  end.

(** [root.findall(path, NS)] *)
Definition findall (root : Element) (p : Path) : list Element :=
  fold_left (fun ctx s => select s ctx) p [root].

(** [root.find(path, NS)] *)
Definition find (root : Element) (p : Path) : option Element :=
  hd_error (findall root p).

(** [el.text or ""] followed by [.strip()] *)
Definition text_or_empty (e : Element) : string :=
  Py.strip (match el_text e with Some t => t | None => "" end).

(** [find_text(root, xpath)] *)
Definition find_text (root : Element) (p : Path) : option string :=
  match find root p with
  | Some e =>
      if opt_truthy (el_text e) then Some (text_or_empty e) else None
  | None => None
  end.

(** The four paths of [extract_principal_href], in its order. *)
Definition principal_paths : list Path :=
  [ [Descendant (pfx "d" "current-user-principal"); Child (pfx "d" "href")];
    [Descendant (pfx "d" "principal-URL"); Child (pfx "d" "href")];
    [Descendant (clark "DAV:" "current-user-principal"); Child (clark "DAV:" "href")];
    [Descendant (clark "DAV:" "principal-URL"); Child (clark "DAV:" "href")] ].

(** The loop of [extract_principal_href] over a parsed tree. *)
Fixpoint first_text (root : Element) (ps : list Path) : option string :=
  match ps with
  | [] => None
  | p :: ps' =>
      match find_text root p with
      | Some v => if Py.truthy v then Some v else first_text root ps'
      | None => first_text root ps'
      end
  end.

(** ** Request and result shapes *)

(** [TimeRange] *)
Record TimeRange := {
  tr_calendar_href : string;
  start_z : string;
  end_z : string
}.

(** [CreateEvent] *)
Record CreateEvent := {
  calendar_href : string;
  summary : string;
  dtstart_z : string;
  dtend_z : string;
  description : option string;
  uid : option string
}.

(** [DeleteEvent] *)
Record DeleteEvent := { href : string }.

(** [{"ok": True, "uid": uid, "href": href}] *)
Record Created := { created_uid : string; created_href : string }.

(** [{"home": home_href, "items": items}] *)
Record Listing := { listing_home : string; listing_items : list (string * string) }.

(** ** Literals of the request bodies *)

Definition nl : string := String Py.LF "".
Definition q (s : string) : string :=
  String (Ascii.ascii_of_nat 34) "" ++ s ++ String (Ascii.ascii_of_nat 34) "".

Definition xml_decl : string := "<?xml version=" ++ q "1.0" ++ "?>".

Definition body_current_user_principal : string :=
  xml_decl ++ nl ++
  "<D:propfind xmlns:D=" ++ q "DAV:" ++ ">" ++ nl ++
  "  <D:prop><D:current-user-principal/></D:prop>" ++ nl ++
  "</D:propfind>".

Definition body_principal_URL : string :=
  xml_decl ++ nl ++
  "<D:propfind xmlns:D=" ++ q "DAV:" ++ ">" ++ nl ++
  "  <D:prop><D:principal-URL/></D:prop>" ++ nl ++
  "</D:propfind>".

Definition body_home : string :=
  xml_decl ++ nl ++
  "<D:propfind xmlns:D=" ++ q "DAV:" ++ " xmlns:C=" ++
    q "urn:ietf:params:xml:ns:caldav" ++ ">" ++ nl ++
  "  <D:prop><C:calendar-home-set/></D:prop>" ++ nl ++
  "</D:propfind>".

Definition typo_ns : string := "urn:ietf:ietf:params:xml:ns:caldav".
Definition caldav_ns : string := "urn:ietf:params:xml:ns:caldav".

Definition body_calendars : string :=
  xml_decl ++ nl ++
  "<D:propfind xmlns:D=" ++ q "DAV:" ++ " xmlns:C=" ++ q typo_ns ++ ">" ++ nl ++
  "  <D:prop>" ++ nl ++
  "    <D:displayname/>" ++ nl ++
  "    <C:supported-calendar-component-set/>" ++ nl ++
  "    <D:resourcetype/>" ++ nl ++
  "  </D:prop>" ++ nl ++
  "</D:propfind>".

Definition body_events (tr : TimeRange) : string :=
  xml_decl ++ nl ++
  "<c:calendar-query xmlns:d=" ++ q "DAV:" ++ " xmlns:c=" ++
    q "urn:ietf:params:xml:ns:caldav" ++ ">" ++ nl ++
  "  <d:prop><d:getetag/><c:calendar-data/></d:prop>" ++ nl ++
  "  <c:filter><c:comp-filter name=" ++ q "VCALENDAR" ++ ">" ++ nl ++
  "    <c:comp-filter name=" ++ q "VEVENT" ++ ">" ++ nl ++
  "      <c:time-range start=" ++ q (start_z tr) ++ " end=" ++ q (end_z tr) ++ "/>" ++ nl ++
  "    </c:comp-filter>" ++ nl ++
  "  </c:comp-filter></c:filter>" ++ nl ++
  "</c:calendar-query>".

(** ** Href resolution

    The expression
    [h if h.startswith(('http://', 'https://')) else f"{BASE}{h}"]
    that [calendars], [events], [create] and [delete] each write out. *)

Definition is_absolute (h : string) : bool :=
  Py.startswith h "http://" || Py.startswith h "https://".

Definition resolve (cfg : Config) (h : string) : string :=
  if is_absolute h then h else BASE cfg ++ h.

(** ** The event document of [create] *)

(** [(ev.uid or uuid.uuid4().hex).upper()], [hex] being the value
    [uuid.uuid4().hex] would give. *)
Definition event_uid (ev : CreateEvent) (hex : string) : string :=
  Py.upper (if opt_truthy (uid ev)
            then match uid ev with Some u => u | None => "" end
            else hex).

(** [(ev.description or '').replace('\n', '\\n')] *)
Definition event_description (ev : CreateEvent) : string :=
  Py.replace
    (if opt_truthy (description ev)
     then match description ev with Some s => s | None => "" end
     else "")
    nl "\n".

(** The list [lines], for the uid already normalised and [dtstamp] the
    formatted current UTC time. *)
Definition event_lines (ev : CreateEvent) (uid_ dtstamp : string) : list string :=
  [ "BEGIN:VCALENDAR";
    "VERSION:2.0";
    "PRODID:-//Clockwork//Study//EN";
    "CALSCALE:GREGORIAN";
    "BEGIN:VEVENT";
    "UID:" ++ uid_ ++ "@clockwork";
    "DTSTAMP:" ++ dtstamp;
    "DTSTART:" ++ dtstart_z ev;
    "DTEND:" ++ dtend_z ev;
    "SUMMARY:" ++ summary ev;
    "DESCRIPTION:" ++ event_description ev;
    "END:VEVENT";
    "END:VCALENDAR";
    "" ].

(** [ics = "\r\n".join(lines)] *)
Definition event_ics (ev : CreateEvent) (uid_ dtstamp : string) : string :=
  Py.join Py.CRLF (event_lines ev uid_ dtstamp).

(** ** The multistatus loops of [calendars] and [events] *)

(** One turn of the loop of [calendars]: [items] is the list built so
    far. *)
Definition calendars_step (items : list (string * string)) (resp : Element)
  : list (string * string) :=
  match find resp [Child (pfx "d" "href")],
        find resp [Descendant (pfx "d" "displayname")] with
  | Some href_el, Some name_el =>
      let href_ := text_or_empty href_el in
      let name := text_or_empty name_el in
      if Py.truthy href_ then (items ++ [(href_, name)])%list else items
  | _, _ => items
  end.

Definition calendars_items (root : Element) : list (string * string) :=
  fold_left calendars_step (findall root [Descendant (pfx "d" "response")]) [].

(** One turn of the loop of [events]. *)
Definition events_step (items : list (string * string)) (resp : Element)
  : list (string * string) :=
  match find resp [Child (pfx "d" "href")],
        find resp [Descendant (pfx "c" "calendar-data")] with
  | Some href_el, Some data_el =>
      let href_ := text_or_empty href_el in
      let ics := text_or_empty data_el in
      if Py.truthy href_ && Py.truthy ics then (items ++ [(href_, ics)])%list
      else items
  | _, _ => items
  end.

Definition events_items (root : Element) : list (string * string) :=
  fold_left events_step (findall root [Descendant (pfx "d" "response")]) [].

(** ** Python dictionaries of headers *)

Fixpoint dict_set (d : list (string * string)) (k v : string)
  : list (string * string) :=
  match d with
  | [] => [(k, v)]
  | (k', v') :: d' =>
      if String.eqb k' k then (k, v) :: d' else (k', v') :: dict_set d' k v
  end.

(** [h.update(headers)] *)
Definition dict_update (h extra : list (string * string)) : list (string * string) :=
  fold_left (fun acc kv => dict_set acc (fst kv) (snd kv)) extra h.

(** ** Declarative readings of the two loops

    What the specification calls an entry: the response's first [href]
    child carries text that is not blank, and (for a calendar) a
    [displayname] element lies below the response, or (for an event) the
    first [calendar-data] element below it carries text that is not
    blank. *)

Definition resp_href (resp : Element) : option string :=
  option_map text_or_empty (find resp [Child (pfx "d" "href")]).

Definition resp_displayname (resp : Element) : option string :=
  option_map text_or_empty (find resp [Descendant (pfx "d" "displayname")]).

Definition resp_calendar_data (resp : Element) : option string :=
  option_map text_or_empty (find resp [Descendant (pfx "c" "calendar-data")]).

Definition nonblank (o : option string) : bool :=
  match o with Some s => Py.truthy s | None => false end.

Definition present {A} (o : option A) : bool :=
  match o with Some _ => true | None => false end.

Definition get (o : option string) : string :=
  match o with Some s => s | None => "" end.

Definition calendar_listed (resp : Element) : bool :=
  nonblank (resp_href resp) && present (resp_displayname resp).

Definition calendar_entry (resp : Element) : string * string :=
  (get (resp_href resp), get (resp_displayname resp)).

Definition event_listed (resp : Element) : bool :=
  nonblank (resp_href resp) && nonblank (resp_calendar_data resp).

Definition event_entry (resp : Element) : string * string :=
  (get (resp_href resp), get (resp_calendar_data resp)).

(** The [response] elements of a multistatus document, in document
    order. *)
Definition responses (root : Element) : list Element :=
  findall root [Descendant (pfx "d" "response")].

(** The responses in which an [href] child and a [displayname] element
    (or a [calendar-data] element) occur at all, whatever their text. *)
Definition has_href_and_displayname (resp : Element) : bool :=
  present (find resp [Child (pfx "d" "href")]) &&
  present (find resp [Descendant (pfx "d" "displayname")]).

Definition has_href_and_data (resp : Element) : bool :=
  present (find resp [Child (pfx "d" "href")]) &&
  nonblank (resp_calendar_data resp).

(** ** Declarative readings of the event document *)

(** Newline escaping, character by character. *)
Fixpoint escape_newlines (s : string) : string :=
  match s with
  | "" => ""
  | String c s' =>
      if Ascii.eqb c Py.LF then "\n" ++ escape_newlines s'
      else String c (escape_newlines s')
  end.

Fixpoint has_char (c : ascii) (s : string) : bool :=
  match s with
  | "" => false
  | String c' s' => Ascii.eqb c' c || has_char c s'
  end.

(** A line feed that does not follow a carriage return; [prev_cr] tells
    whether the character before [s] was one. *)
Fixpoint bare_lf_from (prev_cr : bool) (s : string) : bool :=
  match s with
  | "" => false
  | String c s' =>
      (Ascii.eqb c Py.LF && negb prev_cr) || bare_lf_from (Ascii.eqb c Py.CR) s'
  end.

Definition has_bare_lf (s : string) : bool := bare_lf_from false s.

(** Every line of [ls] followed by CRLF. *)
Definition terminate_all (ls : list string) : string :=
  fold_right (fun l acc => l ++ Py.CRLF ++ acc) "" ls.

(** ** Sample documents, servers and configuration *)

Module Fixture.

Definition dav_ (local : string) : string := clark "DAV:" local.
Definition cal_ (local : string) : string :=
  clark "urn:ietf:params:xml:ns:caldav" local.

Definition leaf (tag txt : string) : Element := Elem tag (Some txt) [].

(** A PROPFIND answer naming the principal [/123/principal/]. *)
Definition doc_principal : Element :=
  Elem (dav_ "multistatus") None
    [Elem (dav_ "response") None
       [leaf (dav_ "href") "/";
        Elem (dav_ "propstat") None
          [Elem (dav_ "prop") None
             [Elem (dav_ "current-user-principal") None
                [leaf (dav_ "href") "/123/principal/"]]]]].

(** A well-formed answer without any principal property. *)
Definition doc_no_principal : Element :=
  Elem (dav_ "multistatus") None
    [Elem (dav_ "response") None [leaf (dav_ "href") "/"]].

Definition response_work : Element :=
  Elem (dav_ "response") None
    [leaf (dav_ "href") "/123/calendars/work/";
     Elem (dav_ "propstat") None
       [Elem (dav_ "prop") None [leaf (dav_ "displayname") "Work"]]].

Definition response_unnamed : Element :=
  Elem (dav_ "response") None [leaf (dav_ "href") "/123/calendars/inbox/"].

(** Two responses, the second without a displayname. *)
Definition doc_listing : Element :=
  Elem (dav_ "multistatus") None [response_work; response_unnamed].

(** A response whose [href] element is empty. *)
Definition response_blank_href : Element :=
  Elem (dav_ "response") None
    [Elem (dav_ "href") None [];
     Elem (dav_ "propstat") None
       [Elem (dav_ "prop") None
          [leaf (dav_ "displayname") "Work";
           leaf (cal_ "calendar-data") "BEGIN:VCALENDAR"]]].

Definition doc_blank_href : Element :=
  Elem (dav_ "multistatus") None [response_blank_href].

(** A stand-in for [ET.fromstring] that knows three texts. *)
Definition fromstring (s : string) : option Element :=
  if String.eqb s "PRINCIPAL" then Some doc_principal
  else if String.eqb s "NOTHING" then Some doc_no_principal
  else if String.eqb s "LISTING" then Some doc_listing
  else None.

(** A scripted server: the world is the list of outcomes still to be
    played, whatever the request. *)
Definition World := list Outcome.

Definition http (r : Request) (w : World) : Outcome * World :=
  match w with
  | [] => (RequestException "connection refused", [])
  | o :: w' => (o, w')
  end.

Definition uuid4_hex (w : World) : string := "0f1e2d3c4b5a69788796a5b4c3d2e1f0".
Definition utcnow_stamp (w : World) : string := "20250101T080000Z".

Definition cfg : Config :=
  {| BASE_URL := None; APPLE_ID := Some "user@example.com";
     APPLE_PW := Some "app-password"; API_KEY := None |}.

Definition multistatus (txt : string) : Outcome :=
  Responded {| status_code := 207; text := txt; reason := "Multi-Status" |}.

Definition not_found_empty : Response :=
  {| status_code := 404; text := ""; reason := "Not Found" |}.

Definition standup : CreateEvent :=
  {| calendar_href := "/123/calendars/work/"; summary := "Standup";
     dtstart_z := "20250101T090000Z"; dtend_z := "20250101T093000Z";
     description := None; uid := None |}.

Definition standup_abc : CreateEvent :=
  {| calendar_href := "/123/calendars/work/"; summary := "Standup";
     dtstart_z := "20250101T090000Z"; dtend_z := "20250101T093000Z";
     description := Some ("agenda" ++ nl ++ "notes"); uid := Some "abc" |}.

Definition two_line_summary : CreateEvent :=
  {| calendar_href := "/123/calendars/work/";
     summary := "Standup" ++ nl ++ "ATTENDEE:mailto:x@example.com";
     dtstart_z := "20250101T090000Z"; dtend_z := "20250101T093000Z";
     description := None; uid := Some "abc" |}.

End Fixture.

(** ** Further sample configurations and request variants *)

Module Sample.

(** An API key is configured. *)
Definition cfg_locked : Config :=
  {| BASE_URL := None; APPLE_ID := Some "user@example.com";
     APPLE_PW := Some "app-password"; API_KEY := Some "s3cret" |}.

(** The app password is missing. *)
Definition cfg_no_password : Config :=
  {| BASE_URL := None; APPLE_ID := Some "user@example.com";
     APPLE_PW := None; API_KEY := None |}.

(** A base URL written with trailing slashes. *)
Definition cfg_slashes : Config :=
  {| BASE_URL := Some "https://dav.example.org//"; APPLE_ID := Some "user@example.com";
     APPLE_PW := Some "app-password"; API_KEY := None |}.

(** An answer naming the calendar home [/123/calendars/]. *)
Definition doc_home : Element :=
  Elem (clark "DAV:" "multistatus") None
    [Elem (clark "DAV:" "response") None
       [Elem (clark "DAV:" "href") (Some "/123/principal/") [];
        Elem (clark "DAV:" "propstat") None
          [Elem (clark "DAV:" "prop") None
             [Elem (clark "urn:ietf:params:xml:ns:caldav" "calendar-home-set") None
                [Elem (clark "DAV:" "href") (Some " /123/calendars/ ") []]]]]].

(** An answer to an event query: one event, and one response without
    calendar data. *)
Definition doc_events : Element :=
  Elem (clark "DAV:" "multistatus") None
    [Elem (clark "DAV:" "response") None
       [Elem (clark "DAV:" "href") (Some "/123/calendars/work/ABC.ics") [];
        Elem (clark "DAV:" "propstat") None
          [Elem (clark "DAV:" "prop") None
             [Elem (clark "urn:ietf:params:xml:ns:caldav" "calendar-data")
                (Some "BEGIN:VCALENDAR") []]]];
     Elem (clark "DAV:" "response") None
       [Elem (clark "DAV:" "href") (Some "/123/calendars/work/") []]].

(** A stand-in for [ET.fromstring] that also knows these two. *)
Definition fromstring (s : string) : option Element :=
  if String.eqb s "HOME" then Some doc_home
  else if String.eqb s "EVENTS" then Some doc_events
  else Fixture.fromstring s.

Definition january : TimeRange :=
  {| tr_calendar_href := "/123/calendars/work/";
     start_z := "20250101T000000Z"; end_z := "20250201T000000Z" |}.

(** A base URL whose scheme is written in capitals. *)
Definition cfg_capital_scheme : Config :=
  {| BASE_URL := Some "HTTPS://caldav.example.org/";
     APPLE_ID := Some "user@example.com";
     APPLE_PW := Some "app-password"; API_KEY := None |}.


End Sample.

(** The string begins with [http://] or with [https://]. *)
Definition begins_http (s : string) : Prop :=
  exists rest : string, s = "http://" ++ rest \/ s = "https://" ++ rest.


(** The first path [home] looks up. *)
Definition home_set_path : Path :=
  [Descendant (pfx "c" "calendar-home-set"); Child (pfx "d" "href")].

(** A request record with another uid or another description. *)
Definition with_uid (ev : CreateEvent) (u : option string) : CreateEvent :=
  {| calendar_href := calendar_href ev; summary := summary ev;
     dtstart_z := dtstart_z ev; dtend_z := dtend_z ev;
     description := description ev; uid := u |}.

Definition with_description (ev : CreateEvent) (d : option string) : CreateEvent :=
  {| calendar_href := calendar_href ev; summary := summary ev;
     dtstart_z := dtstart_z ev; dtend_z := dtend_z ev;
     description := d; uid := uid ev |}.

(** A string made of slashes only. *)
Fixpoint only_slashes (s : string) : bool :=
  match s with
  | "" => true
  | String c s' => Ascii.eqb c "/" && only_slashes s'
  end.

(** The last character of a string, if any. *)
Fixpoint last_char (s : string) : option ascii :=
  match s with
  | "" => None
  | String c "" => Some c
  | String _ s' => last_char s'
  end.

Definition first_char (s : string) : option ascii :=
  match s with
  | "" => None
  | String c _ => Some c
  end.

(** No white space at either end. *)
Definition trimmed (s : string) : Prop :=
  (forall c, first_char s = Some c -> Py.isspace c = false) /\
  (forall c, last_char s = Some c -> Py.isspace c = false).

(** ** The routes *)

Section Bridge.

(** The remote server and the network: a request moves the world on and
    either a response comes back or [requests] raises. *)
Variable World : Type.
Variable http : Request -> World -> Outcome * World.

(** [ET.fromstring]: [None] stands for [ET.ParseError]. *)
Variable fromstring : string -> option Element.

(** [uuid.uuid4().hex] and [utcnow().strftime("%Y%m%dT%H%M%SZ")], read
    off the world. *)
Variable uuid4_hex : World -> string.
Variable utcnow_stamp : World -> string.

Variable cfg : Config.

Record St := { world : World; sent : list Request }.

Definition M (A : Type) : Type := St -> Res A * St.

Definition ret {A} (a : A) : M A := fun st => (Ok a, st).

Definition bind {A B} (m : M A) (k : A -> M B) : M B :=
  fun st =>
    match m st with
    | (Ok a, st') => k a st'
    | (Raise e, st') => (Raise e, st')
    end.

Definition raise {A} (status : Z) (detail : string) : M A :=
  fun st => (Raise {| exc_status := status; exc_detail := detail |}, st).

(** [try: m  except HTTPException: handler] *)
Definition try_except {A} (m handler : M A) : M A :=
  fun st =>
    match m st with
    | (Ok a, st') => (Ok a, st')
    | (Raise _, st') => handler st'
    end.

Notation "x <- m ;; k" := (bind m (fun x => k))
  (at level 61, m at next level, right associativity).
Notation "m ;;; k" := (bind m (fun _ => k))
  (at level 61, right associativity).

(** Hand a request to [requests] and log it. *)
Definition send (r : Request) : M Outcome :=
  fun st =>
    let (o, w) := http r (world st) in
    (Ok o, {| world := w; sent := (sent st ++ [r])%list |}).

Definition read {A} (f : World -> A) : M A :=
  fun st => (Ok (f (world st)), st).

Definition ensure_env : M unit :=
  if negb (opt_truthy (APPLE_ID cfg)) || negb (opt_truthy (APPLE_PW cfg))
  then raise 500 "Server misconfigured: APPLE_ID or APPLE_APP_PASSWORD missing"
  else ret tt.

Definition opt_eqb (a b : option string) : bool :=
  match a, b with
  | Some x, Some y => String.eqb x y
  | None, None => true
  | _, _ => false
  end.

Definition require_key (x_api_key : option string) : M unit :=
  if opt_truthy (API_KEY cfg) && negb (opt_eqb x_api_key (API_KEY cfg))
  then raise 401 "Invalid API key"
  else ret tt.

Definition dav (method_ url_ : string) (headers_ : list (string * string))
    (body : option string) (content_type_xml : bool) : M Response :=
  ensure_env ;;;
  let h := if content_type_xml
           then [("Content-Type", "application/xml; charset=utf-8")]
           else [] in
  let h := dict_update h headers_ in
  o <- send {| method := method_; url := url_; headers := h; data := body;
               auth := (APPLE_ID cfg, APPLE_PW cfg) |} ;;
  match o with
  | RequestException msg => raise 502 ("Upstream request failed: " ++ msg)
  | Responded r =>
      if 400 <=? status_code r
      then raise (status_code r) (Py.or_str (text r) (reason r))
      else ret r
  end.

Definition parse_xml (xml : string) : M Element :=
  match fromstring xml with
  | Some root => ret root
  | None => raise 502 "Failed to parse XML from iCloud"
  end.

Definition extract_principal_href (xml : string) : M (option string) :=
  root <- parse_xml xml ;;
  ret (first_text root principal_paths).

(** The loop [for path in ("/.well-known/caldav", "/")] of [principal];
    [Some href] is its early [return]. *)
Fixpoint principal_loop (paths : list string) : M (option string) :=
  match paths with
  | [] => ret None
  | path :: rest =>
      r <- dav "PROPFIND" (BASE cfg ++ path) [("Depth", "0")]
               (Some body_current_user_principal) true ;;
      href_ <- extract_principal_href (text r) ;;
      if opt_truthy href_ then ret href_ else principal_loop rest
  end.

Definition principal (x_api_key : option string) : M string :=
  require_key x_api_key ;;;
  found <- principal_loop ["/.well-known/caldav"; "/"] ;;
  match found with
  | Some h => ret h
  | None =>
      r2 <- dav "PROPFIND" (BASE cfg ++ "/") [("Depth", "0")]
                (Some body_principal_URL) true ;;
      href_ <- extract_principal_href (text r2) ;;
      match href_ with
      | Some h => if Py.truthy h then ret h
                  else raise 500 "Could not parse principal href"
      | None => raise 500 "Could not parse principal href"
      end
  end.

(** [a or b] on optional strings. *)
Definition or_opt (a b : option string) : option string :=
  if opt_truthy a then a else b.

Definition home (x_api_key : option string) : M string :=
  require_key x_api_key ;;;
  p <- principal x_api_key ;;
  r <- dav "PROPFIND" (BASE cfg ++ p) [("Depth", "0")] (Some body_home) true ;;
  root <- parse_xml (text r) ;;
  let href_ :=
    or_opt
      (find_text root [Descendant (pfx "c" "calendar-home-set");
                       Child (pfx "d" "href")])
      (find_text root
         [Descendant (clark "urn:ietf:params:xml:ns:caldav" "calendar-home-set");
          Child (clark "DAV:" "href")]) in
  match href_ with
  | Some h => if Py.truthy h then ret h
              else raise 500 "Could not parse calendar-home-set"
  | None => raise 500 "Could not parse calendar-home-set"
  end.

(** The inner function [do_list] of [calendars]. *)
Definition do_list (home_href : string) (ns_ok : bool) : M string :=
  let xml := if ns_ok then body_calendars
             else Py.replace body_calendars typo_ns caldav_ns in
  let url_ := resolve cfg home_href in
  r <- dav "PROPFIND" url_ [("Depth", "1")] (Some xml) true ;;
  ret (text r).

(** [calendars] from the point where [home_href] is known. *)
Definition calendars_from (home_href : string) : M Listing :=
  res <- try_except (do_list home_href true) (do_list home_href false) ;;
  root <- parse_xml res ;;
  ret {| listing_home := home_href; listing_items := calendars_items root |}.

Definition calendars (x_api_key : option string) : M Listing :=
  require_key x_api_key ;;;
  home_href <- home x_api_key ;;
  calendars_from home_href.

Definition events (tr : TimeRange) (x_api_key : option string)
  : M (list (string * string)) :=
  require_key x_api_key ;;;
  let url_ := resolve cfg (tr_calendar_href tr) in
  r <- dav "REPORT" url_ [("Depth", "1")] (Some (body_events tr)) true ;;
  root <- parse_xml (text r) ;;
  ret (events_items root).

Definition create (ev : CreateEvent) (x_api_key : option string) : M Created :=
  require_key x_api_key ;;;
  hex <- read uuid4_hex ;;
  let uid_ := event_uid ev hex in
  dtstamp <- read utcnow_stamp ;;
  let ics := event_ics ev uid_ dtstamp in
  let calendar_url := resolve cfg (calendar_href ev) in
  let url_ := calendar_url ++ uid_ ++ ".ics" in
  o <- send {| method := "PUT"; url := url_;
               headers := [("Content-Type", "text/calendar; charset=utf-8");
                           ("If-None-Match", "*")];
               data := Some ics;
               auth := (APPLE_ID cfg, APPLE_PW cfg) |} ;;
  match o with
  | RequestException msg => raise 502 ("Upstream PUT failed: " ++ msg)
  | Responded r =>
      if negb (Py.in_Z (status_code r) [200; 201; 204])
      then raise (status_code r) (Py.or_str (text r) (reason r))
      else ret {| created_uid := uid_;
                  created_href := calendar_href ev ++ uid_ ++ ".ics" |}
  end.

Definition delete (d : DeleteEvent) (x_api_key : option string) : M unit :=
  require_key x_api_key ;;;
  let url_ := resolve cfg (href d) in
  o <- send {| method := "DELETE"; url := url_; headers := [];
               data := None; auth := (APPLE_ID cfg, APPLE_PW cfg) |} ;;
  match o with
  | RequestException msg => raise 502 ("Upstream DELETE failed: " ++ msg)
  | Responded r =>
      if negb (Py.in_Z (status_code r) [200; 202; 204])
      then raise (status_code r) (Py.or_str (text r) (reason r))
      else ret tt
  end.


(** The request [dav] sends for an XML body and a [Depth] header. *)
Definition depth_request (method_ url_ depth body : string) : Request :=
  {| method := method_; url := url_;
     headers := [("Content-Type", "application/xml; charset=utf-8");
                 ("Depth", depth)];
     data := Some body;
     auth := (APPLE_ID cfg, APPLE_PW cfg) |}.

(** The request an attempt of principal discovery or of calendar listing
    sends. *)
Definition propfind (url_ depth body : string) : Request :=
  depth_request "PROPFIND" url_ depth body.

(** The request of [events]. *)
Definition report (tr : TimeRange) : Request :=
  depth_request "REPORT" (resolve cfg (tr_calendar_href tr)) "1" (body_events tr).

(** The result of [events] once the answer is in hand. *)
Definition pairs_of (r : Res Response) : Res (list (string * string)) :=
  match r with
  | Ok resp =>
      match fromstring (text resp) with
      | Some root => Ok (events_items root)
      | None =>
          Raise {| exc_status := 502;
                   exc_detail := "Failed to parse XML from iCloud" |}
      end
  | Raise e => Raise e
  end.

(** The PUT of [create] and the DELETE of [delete]. *)
Definition put_request (url_ ics : string) : Request :=
  {| method := "PUT"; url := url_;
     headers := [("Content-Type", "text/calendar; charset=utf-8");
                 ("If-None-Match", "*")];
     data := Some ics;
     auth := (APPLE_ID cfg, APPLE_PW cfg) |}.

Definition delete_request (url_ : string) : Request :=
  {| method := "DELETE"; url := url_; headers := []; data := None;
     auth := (APPLE_ID cfg, APPLE_PW cfg) |}.

(** The upstream error of a response: its status with its body text, or
    with its reason phrase when the body is empty. *)
Definition upstream_error (r : Response) : HTTPException :=
  {| exc_status := status_code r;
     exc_detail := if String.eqb (text r) "" then reason r else text r |}.

(** What [dav] does with the outcome of its request. *)
Definition dav_result (o : Outcome) : Res Response :=
  match o with
  | RequestException msg =>
      Raise {| exc_status := 502;
               exc_detail := "Upstream request failed: " ++ msg |}
  | Responded r =>
      if 400 <=? status_code r then Raise (upstream_error r) else Ok r
  end.

(** The PUT that [create] sends from the state [st]. *)
Definition create_request (ev : CreateEvent) (st : St) : Request :=
  let uid_ := event_uid ev (uuid4_hex (world st)) in
  put_request (resolve cfg (calendar_href ev) ++ uid_ ++ ".ics")
              (event_ics ev uid_ (utcnow_stamp (world st))).

(** The body of the calendar listing with [ns] as the namespace bound
    to the prefix [C]. *)
Definition calendars_body_with (ns : string) : string :=
  xml_decl ++ nl ++
  "<D:propfind xmlns:D=" ++ q "DAV:" ++ " xmlns:C=" ++ q ns ++ ">" ++ nl ++
  "  <D:prop>" ++ nl ++
  "    <D:displayname/>" ++ nl ++
  "    <C:supported-calendar-component-set/>" ++ nl ++
  "    <D:resourcetype/>" ++ nl ++
  "  </D:prop>" ++ nl ++
  "</D:propfind>".

(** The result of [calendars] once the listing text is in hand. *)
Definition listing_of (home_href txt : string) : Res Listing :=
  match fromstring txt with
  | Some root =>
      Ok {| listing_home := home_href; listing_items := calendars_items root |}
  | None =>
      Raise {| exc_status := 502;
               exc_detail := "Failed to parse XML from iCloud" |}
  end.

Definition run {A} (m : M A) (st : St) : Res A := fst (m st).
Definition after {A} (m : M A) (st : St) : St := snd (m st).

(** [health] *)
Definition health (x_api_key : option string) : M bool :=
  require_key x_api_key ;;;
  ret true.

(** [principal_xml]: the raw text of the PROPFIND against the base root. *)
Definition principal_xml (x_api_key : option string) : M string :=
  require_key x_api_key ;;;
  r <- dav "PROPFIND" (BASE cfg ++ "/") [("Depth", "0")]
           (Some body_current_user_principal) true ;;
  ret (text r).

(** The computation [m] only adds to the log of requests: at most [n]
    requests, each of them satisfying [P]. *)
Definition emits {A} (P : Request -> Prop) (n : nat) (m : M A) : Prop :=
  forall st : St,
    exists rs : list Request,
      sent (snd (m st)) = (sent st ++ rs)%list /\
      (length rs <= n)%nat /\ Forall P rs.

(** The exceptions of the key gate and of the credential check. *)
Definition invalid_key : HTTPException :=
  {| exc_status := 401; exc_detail := "Invalid API key" |}.

Definition misconfigured : HTTPException :=
  {| exc_status := 500;
     exc_detail := "Server misconfigured: APPLE_ID or APPLE_APP_PASSWORD missing" |}.

(** A request of the discovery chain: a PROPFIND, to an absolute URL
    whenever the base is one. *)
Definition discovery_request (r : Request) : Prop :=
  method r = "PROPFIND" /\
  (is_absolute (BASE cfg) = true -> is_absolute (url r) = true).

(** What [home] makes of the answer to its PROPFIND. *)
Definition home_result (r : Res Response) : Res string :=
  match r with
  | Raise e => Raise e
  | Ok resp =>
      match fromstring (text resp) with
      | None =>
          Raise {| exc_status := 502;
                   exc_detail := "Failed to parse XML from iCloud" |}
      | Some root =>
          match find_text root home_set_path with
          | Some h =>
              if Py.truthy h then Ok h
              else Raise {| exc_status := 500;
                            exc_detail := "Could not parse calendar-home-set" |}
          | None =>
              Raise {| exc_status := 500;
                       exc_detail := "Could not parse calendar-home-set" |}
          end
      end
  end.

(** * Properties *)

(** ** Strings *)

Lemma prefix_app (p s t : string) :
  String.prefix p s = true -> String.prefix p (s ++ t) = true.
Proof.
  revert s. induction p as [|a p IH]; intros s H.
  { destruct (s ++ t); reflexivity. }
  destruct s as [|b s]; simpl in *; [discriminate|].
  destruct (ascii_dec a b); [apply IH; exact H | discriminate].
Qed.

Lemma prefix_self_app (p t : string) : String.prefix p (p ++ t) = true.
Proof.
  induction p as [|a p IH]; simpl.
  { destruct t; reflexivity. }
  destruct (ascii_dec a a); [exact IH | congruence].
Qed.

Lemma is_absolute_app (b h : string) :
  is_absolute b = true -> is_absolute (b ++ h) = true.
Proof.
  unfold is_absolute, Py.startswith. intros H.
  apply orb_true_iff in H. apply orb_true_iff.
  destruct H as [H|H]; [left|right]; apply prefix_app; exact H.
Qed.

Lemma is_absolute_http (rest : string) :
  is_absolute ("http://" ++ rest) = true /\
  is_absolute ("https://" ++ rest) = true.
Proof.
  unfold is_absolute, Py.startswith. split; apply orb_true_iff.
  - left. apply prefix_self_app.
  - right. apply prefix_self_app.
Qed.

Lemma truthy_false (s : string) : Py.truthy s = false <-> s = "".
Proof. destruct s; simpl; split; congruence. Qed.

Lemma truthy_true (s : string) : Py.truthy s = true <-> s <> "".
Proof. destruct s; simpl; split; congruence. Qed.

Lemma or_str_spec (a b : string) :
  Py.or_str a b = if String.eqb a "" then b else a.
Proof. destruct a; reflexivity. Qed.

Lemma in_Z_spec (x : Z) (xs : list Z) : Py.in_Z x xs = true <-> In x xs.
Proof.
  unfold Py.in_Z. rewrite existsb_exists. split.
  - intros [y [Hy E]]. apply Z.eqb_eq in E. subst. exact Hy.
  - intros H. exists x. split; [exact H | apply Z.eqb_refl].
Qed.

Lemma replace_newline (s : string) :
  Py.replace s nl "\n" = escape_newlines s.
Proof.
  unfold Py.replace.
  induction s as [|c s IH]; [reflexivity|].
  cbn [Py.replace_from escape_newlines nl String.prefix].
  destruct (ascii_dec Py.LF c) as [E|N].
  - subst c. rewrite Ascii.eqb_refl. cbn. rewrite IH.
    destruct s; reflexivity.
  - destruct (Ascii.eqb_spec c Py.LF) as [E|_]; [congruence|].
    rewrite IH. reflexivity.
Qed.

Lemma escape_newlines_no_lf (s : string) :
  has_char Py.LF (escape_newlines s) = false.
Proof.
  induction s as [|c s IH]; [reflexivity|]. simpl.
  destruct (Ascii.eqb_spec c Py.LF) as [E|N].
  - simpl. exact IH.
  - simpl. rewrite IH.
    destruct (Ascii.eqb_spec c Py.LF); [contradiction | reflexivity].
Qed.

Lemma escape_newlines_id (s : string) :
  has_char Py.LF s = false -> escape_newlines s = s.
Proof.
  induction s as [|c s IH]; [reflexivity|]. simpl. intros H.
  apply orb_false_iff in H. destruct H as [Hc Hs].
  rewrite Hc. rewrite (IH Hs). reflexivity.
Qed.

Lemma escape_newlines_app (s t : string) :
  escape_newlines (s ++ t) = escape_newlines s ++ escape_newlines t.
Proof.
  induction s as [|c s IH]; [reflexivity|]. simpl.
  destruct (Ascii.eqb c Py.LF); simpl; rewrite IH; reflexivity.
Qed.

Lemma string_app_assoc (a b c : string) : (a ++ b) ++ c = a ++ b ++ c.
Proof. induction a as [|x a IH]; simpl; [reflexivity | rewrite IH; reflexivity]. Qed.

Lemma join_cons (sep l : string) (ls : list string) :
  ls <> [] -> Py.join sep (l :: ls) = l ++ sep ++ Py.join sep ls.
Proof. destruct ls; [congruence | reflexivity]. Qed.

Lemma join_app (sep : string) (xs ys : list string) :
  xs <> [] -> ys <> [] ->
  Py.join sep (xs ++ ys)%list = Py.join sep xs ++ sep ++ Py.join sep ys.
Proof.
  intros Hx Hy. induction xs as [|x xs IH]; [congruence|].
  destruct xs as [|x' xs].
  - simpl app. rewrite join_cons by exact Hy. reflexivity.
  - change ((x :: x' :: xs) ++ ys)%list with (x :: ((x' :: xs) ++ ys))%list.
    rewrite join_cons by discriminate.
    rewrite IH by discriminate.
    rewrite (@join_cons sep x (x' :: xs)) by discriminate.
    rewrite !string_app_assoc. reflexivity.
Qed.

(** ** Href resolution *)

(** When the base URL itself passes the test of [is_absolute], as the
    default [https://caldav.icloud.com] does, resolving twice is resolving
    once. *)
Theorem resolve_idempotent (c : Config) (h : string) :
  is_absolute (BASE c) = true ->
  resolve c (resolve c h) = resolve c h /\
  (is_absolute h = true -> resolve c h = h) /\
  (is_absolute h = false -> resolve c h = BASE c ++ h) /\
  (forall rest : string,
      resolve c ("http://" ++ rest) = "http://" ++ rest /\
      resolve c ("https://" ++ rest) = "https://" ++ rest).
Proof.
  intros Hbase. unfold resolve. split; [|split; [|split]].
  - destruct (is_absolute h) eqn:Hh.
    + rewrite Hh. reflexivity.
    + rewrite (@is_absolute_app (BASE c) h Hbase). reflexivity.
  - intros ->. reflexivity.
  - intros ->. reflexivity.
  - intros rest. destruct (is_absolute_http rest) as [H1 H2].
    rewrite H1, H2. split; reflexivity.
Qed.

(** ** The event document *)

Lemma event_description_get (ev : CreateEvent) :
  event_description ev = escape_newlines (get (description ev)).
Proof.
  unfold event_description. rewrite replace_newline.
  destruct (description ev) as [[|c s]|]; reflexivity.
Qed.

(** C7.  Every newline of the description appears in the generated
    document as backslash followed by [n]: the DESCRIPTION line is the
    description with each line feed replaced by these two characters and
    every other character (comma, semicolon, backslash) copied as it is,
    so the line holds no line feed, and a description without newlines
    is copied unchanged. *)
Theorem description_newlines_escaped (ev : CreateEvent) (uid_ dtstamp : string) :
  let d := get (description ev) in
  event_description ev = escape_newlines d /\
  has_char Py.LF (event_description ev) = false /\
  (forall a b : string,
      d = a ++ nl ++ b ->
      event_description ev = escape_newlines a ++ "\n" ++ escape_newlines b) /\
  (has_char Py.LF d = false -> event_description ev = d) /\
  event_ics ev uid_ dtstamp =
    Py.join Py.CRLF (firstn 10 (event_lines ev uid_ dtstamp)) ++ Py.CRLF ++
    ("DESCRIPTION:" ++ escape_newlines d) ++ Py.CRLF ++
    "END:VEVENT" ++ Py.CRLF ++ "END:VCALENDAR" ++ Py.CRLF.
Proof.
  intros d. rewrite event_description_get. fold d.
  split; [reflexivity|]. split; [apply escape_newlines_no_lf|].
  split; [|split].
  - intros a b E. rewrite E. rewrite !escape_newlines_app.
    replace (escape_newlines nl) with "\n" by reflexivity. reflexivity.
  - apply escape_newlines_id.
  - unfold event_ics.
    rewrite <- (firstn_skipn 10 (event_lines ev uid_ dtstamp)) at 1.
    rewrite join_app; [| discriminate | discriminate].
    cbn [event_lines skipn Py.join]. rewrite event_description_get. fold d.
    reflexivity.
Qed.

(** ** Running the routes *)

Lemma require_key_any (key : option string) (st st' : St) :
  require_key key st = (Ok tt, st) -> require_key key st' = (Ok tt, st').
Proof.
  unfold require_key.
  destruct (opt_truthy (API_KEY cfg) && negb (opt_eqb key (API_KEY cfg)));
    unfold raise, ret; intros H; [discriminate | reflexivity].
Qed.

Lemma ensure_env_any (st st' : St) :
  ensure_env st = (Ok tt, st) -> ensure_env st' = (Ok tt, st').
Proof.
  unfold ensure_env.
  destruct (negb (opt_truthy (APPLE_ID cfg)) || negb (opt_truthy (APPLE_PW cfg)));
    unfold raise, ret; intros H; [discriminate | reflexivity].
Qed.

Lemma dav_depth (method_ url_ depth body : string) (st : St) :
  ensure_env st = (Ok tt, st) ->
  dav method_ url_ [("Depth", depth)] (Some body) true st =
    (dav_result (fst (http (depth_request method_ url_ depth body) (world st))),
     {| world := snd (http (depth_request method_ url_ depth body) (world st));
        sent := (sent st ++ [depth_request method_ url_ depth body])%list |}).
Proof.
  intros Henv. unfold dav, bind. rewrite Henv.
  unfold send. cbn [dict_update fold_left dict_set fst snd String.eqb Ascii.eqb Bool.eqb].
  fold (depth_request method_ url_ depth body).
  destruct (http (depth_request method_ url_ depth body) (world st)) as [o w].
  cbn [fst snd]. destruct o as [r|msg]; cbn [dav_result].
  - destruct (400 <=? status_code r); unfold raise, ret, upstream_error;
      rewrite ?or_str_spec; reflexivity.
  - reflexivity.
Qed.

Lemma dav_propfind (url_ depth body : string) (st : St) :
  ensure_env st = (Ok tt, st) ->
  dav "PROPFIND" url_ [("Depth", depth)] (Some body) true st =
    (dav_result (fst (http (propfind url_ depth body) (world st))),
     {| world := snd (http (propfind url_ depth body) (world st));
        sent := (sent st ++ [propfind url_ depth body])%list |}).
Proof. intros Henv. unfold propfind. apply dav_depth. exact Henv. Qed.

Lemma dav_sends_at_most_once (m u : string) (hs : list (string * string))
    (b : option string) (x : bool) (st : St) :
  exists rs, sent (snd (dav m u hs b x st)) = (sent st ++ rs)%list /\
             (length rs <= 1)%nat.
Proof.
  unfold dav, bind, ensure_env.
  destruct (negb (opt_truthy (APPLE_ID cfg)) || negb (opt_truthy (APPLE_PW cfg))).
  - exists []. cbn. rewrite app_nil_r. split; [reflexivity | lia].
  - cbn. unfold send.
    match goal with |- context [http ?r ?w] =>
      destruct (http r w) as [o w']; exists [r] end.
    split; [| cbn; lia].
    destruct o as [r|msg]; [destruct (400 <=? status_code r)|]; reflexivity.
Qed.

Lemma first_text_truthy (root : Element) (ps : list Path) (v : string) :
  first_text root ps = Some v -> Py.truthy v = true.
Proof.
  induction ps as [|p ps IH]; simpl; [discriminate|].
  destruct (find_text root p) as [w|]; [|exact IH].
  destruct (Py.truthy w) eqn:E; [|exact IH].
  intros H. injection H as <-. exact E.
Qed.



(** ** Principal discovery *)


(** ** Creating and deleting events *)

Lemma create_run (ev : CreateEvent) (key : option string) (st : St) :
  require_key key st = (Ok tt, st) ->
  create ev key st =
    (match fst (http (create_request ev st) (world st)) with
     | RequestException msg =>
         Raise {| exc_status := 502;
                  exc_detail := "Upstream PUT failed: " ++ msg |}
     | Responded r =>
         if Py.in_Z (status_code r) [200; 201; 204]
         then Ok {| created_uid := event_uid ev (uuid4_hex (world st));
                    created_href :=
                      calendar_href ev ++ event_uid ev (uuid4_hex (world st))
                        ++ ".ics" |}
         else Raise (upstream_error r)
     end,
     {| world := snd (http (create_request ev st) (world st));
        sent := (sent st ++ [create_request ev st])%list |}).
Proof.
  intros Hkey. unfold create, bind at 1. rewrite Hkey.
  unfold bind, read, send. cbn [world].
  fold (put_request
          (resolve cfg (calendar_href ev) ++
             event_uid ev (uuid4_hex (world st)) ++ ".ics")
          (event_ics ev (event_uid ev (uuid4_hex (world st)))
             (utcnow_stamp (world st)))).
  fold (create_request ev st).
  destruct (http (create_request ev st) (world st)) as [o w]. cbn [fst snd].
  destruct o as [r|msg]; [|reflexivity].
  destruct (Py.in_Z (status_code r) [200; 201; 204]); cbn [negb];
    unfold raise, ret, upstream_error; rewrite ?or_str_spec; reflexivity.
Qed.

Lemma delete_run (d : DeleteEvent) (key : option string) (st : St) :
  require_key key st = (Ok tt, st) ->
  delete d key st =
    (match fst (http (delete_request (resolve cfg (href d))) (world st)) with
     | RequestException msg =>
         Raise {| exc_status := 502;
                  exc_detail := "Upstream DELETE failed: " ++ msg |}
     | Responded r =>
         if Py.in_Z (status_code r) [200; 202; 204]
         then Ok tt
         else Raise (upstream_error r)
     end,
     {| world := snd (http (delete_request (resolve cfg (href d))) (world st));
        sent := (sent st ++ [delete_request (resolve cfg (href d))])%list |}).
Proof.
  intros Hkey. unfold delete, bind at 1. rewrite Hkey.
  unfold bind, send. fold (delete_request (resolve cfg (href d))).
  destruct (http (delete_request (resolve cfg (href d))) (world st)) as [o w].
  cbn [fst snd]. destruct o as [r|msg]; [|reflexivity].
  destruct (Py.in_Z (status_code r) [200; 202; 204]); cbn [negb];
    unfold raise, ret, upstream_error; rewrite ?or_str_spec; reflexivity.
Qed.

Lemma in_Z_false (x : Z) (xs : list Z) : Py.in_Z x xs = false <-> ~ In x xs.
Proof.
  rewrite <- in_Z_spec. destruct (Py.in_Z x xs); split; congruence.
Qed.

(** C2 (as amended).  Event creation sends one PUT to the resolved
    calendar href followed by [UID.ics], with [If-None-Match: *], the
    calendar content type and the document as body.  When the server
    answers 200, 201 or 204 the operation succeeds and returns the UID;
    for every other status it raises an upstream error with the
    server's status and its body text, or its reason phrase when the
    body text is empty. *)
Theorem create_put_outcome (ev : CreateEvent) (key : option string) (st : St) :
  require_key key st = (Ok tt, st) ->
  let uid_ := event_uid ev (uuid4_hex (world st)) in
  let req := create_request ev st in
  sent (after (create ev key) st) = (sent st ++ [req])%list /\
  method req = "PUT" /\
  url req = resolve cfg (calendar_href ev) ++ uid_ ++ ".ics" /\
  In ("If-None-Match", "*") (headers req) /\
  In ("Content-Type", "text/calendar; charset=utf-8") (headers req) /\
  data req = Some (event_ics ev uid_ (utcnow_stamp (world st))) /\
  forall r : Response,
    fst (http req (world st)) = Responded r ->
    (In (status_code r) [200; 201; 204] ->
     run (create ev key) st =
       Ok {| created_uid := uid_;
             created_href := calendar_href ev ++ uid_ ++ ".ics" |}) /\
    (~ In (status_code r) [200; 201; 204] ->
     run (create ev key) st =
       Raise {| exc_status := status_code r;
                exc_detail := if String.eqb (text r) "" then reason r
                              else text r |}).
Proof.
  intros Hkey uid_ req. unfold run, after. rewrite create_run by exact Hkey.
  cbn [fst snd]. fold req. repeat split; try reflexivity.
  - cbn. right. left. reflexivity.
  - cbn. left. reflexivity.
  - intros Hin. rewrite H. apply in_Z_spec in Hin. rewrite Hin. reflexivity.
  - intros Hout. rewrite H. apply in_Z_false in Hout. rewrite Hout. reflexivity.
Qed.

(** C9 (as amended).  Event deletion sends one DELETE to the resolved
    href and succeeds exactly when the server's status is 200, 202 or
    204; for every other status, 404 included, it raises an upstream
    error with the server's status and its body text, or its reason
    phrase when the body text is empty. *)
Theorem delete_outcome (d : DeleteEvent) (key : option string) (st : St) :
  require_key key st = (Ok tt, st) ->
  let req := delete_request (resolve cfg (href d)) in
  sent (after (delete d key) st) = (sent st ++ [req])%list /\
  forall r : Response,
    fst (http req (world st)) = Responded r ->
    (run (delete d key) st = Ok tt <-> In (status_code r) [200; 202; 204]) /\
    (~ In (status_code r) [200; 202; 204] ->
     run (delete d key) st =
       Raise {| exc_status := status_code r;
                exc_detail := if String.eqb (text r) "" then reason r
                              else text r |}).
Proof.
  intros Hkey req. unfold run, after. rewrite delete_run by exact Hkey.
  cbn [fst snd]. fold req. split; [reflexivity|].
  intros r Hr. rewrite Hr.
  destruct (Py.in_Z (status_code r) [200; 202; 204]) eqn:E.
  - apply in_Z_spec in E. split; [tauto | contradiction].
  - apply in_Z_false in E. split; [split; [discriminate | contradiction]|].
    reflexivity.
Qed.



(** ** Calendar listing: the two attempts *)

Lemma body_calendars_typo : body_calendars = calendars_body_with typo_ns.
Proof. reflexivity. Qed.

Lemma body_calendars_replaced :
  Py.replace body_calendars typo_ns caldav_ns = calendars_body_with caldav_ns.
Proof. vm_compute. reflexivity. Qed.

Lemma do_list_run (home_href : string) (ns_ok : bool) (st : St) :
  ensure_env st = (Ok tt, st) ->
  let req := propfind (resolve cfg home_href) "1"
               (calendars_body_with (if ns_ok then typo_ns else caldav_ns)) in
  do_list home_href ns_ok st =
    (match dav_result (fst (http req (world st))) with
     | Ok r => Ok (text r)
     | Raise e => Raise e
     end,
     {| world := snd (http req (world st));
        sent := (sent st ++ [req])%list |}).
Proof.
  intros Henv req. unfold do_list, bind.
  rewrite body_calendars_replaced, body_calendars_typo.
  replace (if ns_ok then calendars_body_with typo_ns
           else calendars_body_with caldav_ns)
    with (calendars_body_with (if ns_ok then typo_ns else caldav_ns))
    by (destruct ns_ok; reflexivity).
  rewrite dav_propfind by exact Henv. fold req.
  destruct (dav_result (fst (http req (world st)))); reflexivity.
Qed.

Lemma parse_listing (home_href txt : string) (st : St) :
  bind (parse_xml txt)
    (fun root => ret {| listing_home := home_href;
                        listing_items := calendars_items root |}) st =
    (listing_of home_href txt, st).
Proof.
  unfold bind, parse_xml, listing_of.
  destruct (fromstring txt); reflexivity.
Qed.

Lemma calendars_from_run (home_href : string) (st : St) :
  ensure_env st = (Ok tt, st) ->
  let first := propfind (resolve cfg home_href) "1" (calendars_body_with typo_ns) in
  let second := propfind (resolve cfg home_href) "1" (calendars_body_with caldav_ns) in
  let w1 := snd (http first (world st)) in
  calendars_from home_href st =
    match dav_result (fst (http first (world st))) with
    | Ok r1 =>
        (listing_of home_href (text r1),
         {| world := w1; sent := (sent st ++ [first])%list |})
    | Raise _ =>
        (match dav_result (fst (http second w1)) with
         | Ok r2 => listing_of home_href (text r2)
         | Raise e2 => Raise e2
         end,
         {| world := snd (http second w1);
            sent := (sent st ++ [first; second])%list |})
    end.
Proof.
  intros Henv first second w1.
  assert (H1 := @do_list_run home_href true st Henv).
  cbv beta zeta iota in H1. fold first in H1. fold w1 in H1.
  unfold calendars_from. unfold bind at 1. unfold try_except. rewrite H1.
  destruct (dav_result (fst (http first (world st)))) as [r1|e1].
  - apply parse_listing.
  - set (s1 := {| world := w1; sent := (sent st ++ [first])%list |}).
    assert (H2 := @do_list_run home_href false s1 (@ensure_env_any st s1 Henv)).
    cbv beta zeta iota in H2. fold second in H2. cbn [world sent s1] in H2.
    rewrite H2.
    destruct (dav_result (fst (http second w1))) as [r2|e2].
    + rewrite parse_listing. rewrite <- app_assoc. reflexivity.
    + rewrite <- app_assoc. reflexivity.
Qed.

(** C6.  Calendar listing first sends its depth-1 PROPFIND with the
    namespace string [urn:ietf:ietf:params:xml:ns:caldav].  When that
    request is answered without error it is the only one.  When it is
    rejected (an error status, or no answer at all) the same PROPFIND is
    sent exactly once more with [urn:ietf:params:xml:ns:caldav]; the
    listing is then built from the second answer, or the second error is
    raised.  No third request is ever sent. *)
Theorem calendars_two_attempts (home_href : string) (st : St) :
  ensure_env st = (Ok tt, st) ->
  let first := propfind (resolve cfg home_href) "1" (calendars_body_with typo_ns) in
  let second := propfind (resolve cfg home_href) "1" (calendars_body_with caldav_ns) in
  let o1 := fst (http first (world st)) in
  let o2 := fst (http second (snd (http first (world st)))) in
  let st' := after (calendars_from home_href) st in
  (length (sent st') <= length (sent st) + 2)%nat /\
  match dav_result o1 with
  | Ok r1 =>
      sent st' = (sent st ++ [first])%list /\
      run (calendars_from home_href) st = listing_of home_href (text r1)
  | Raise _ =>
      sent st' = (sent st ++ [first; second])%list /\
      match dav_result o2 with
      | Ok r2 => run (calendars_from home_href) st = listing_of home_href (text r2)
      | Raise e2 => run (calendars_from home_href) st = Raise e2
      end
  end.
Proof.
  intros Henv first second o1 o2 st'.
  unfold st', run, after. rewrite calendars_from_run by exact Henv.
  cbv zeta. fold first second o1 o2.
  destruct (dav_result o1) as [r1|e1]; cbn [fst snd sent].
  - split; [rewrite length_app; cbn; lia|]. split; reflexivity.
  - split; [rewrite length_app; cbn; lia|]. split; [reflexivity|].
    destruct (dav_result o2); reflexivity.
Qed.

(** ** The multistatus loops *)

Lemma fold_left_collect {A B : Type} (keep : A -> bool) (f : A -> B)
    (step : list B -> A -> list B) :
  (forall acc x, step acc x = if keep x then (acc ++ [f x])%list else acc) ->
  forall (l : list A) (acc : list B),
    fold_left step l acc = (acc ++ map f (filter keep l))%list.
Proof.
  intros Hstep. induction l as [|x l IH]; intros acc; cbn [fold_left filter].
  - cbn. rewrite app_nil_r. reflexivity.
  - rewrite IH, Hstep. destruct (keep x); [|reflexivity].
    cbn [map]. rewrite <- app_assoc. reflexivity.
Qed.

Lemma calendars_step_spec (items : list (string * string)) (resp : Element) :
  calendars_step items resp =
    if calendar_listed resp then (items ++ [calendar_entry resp])%list else items.
Proof.
  unfold calendars_step, calendar_listed, calendar_entry,
    resp_href, resp_displayname.
  destruct (find resp [Child (pfx "d" "href")]) as [h|]; [|reflexivity].
  destruct (find resp [Descendant (pfx "d" "displayname")]) as [n|];
    cbn [option_map nonblank present get].
  - destruct (Py.truthy (text_or_empty h)); reflexivity.
  - rewrite andb_false_r. reflexivity.
Qed.

Lemma events_step_spec (items : list (string * string)) (resp : Element) :
  events_step items resp =
    if event_listed resp then (items ++ [event_entry resp])%list else items.
Proof.
  unfold events_step, event_listed, event_entry, resp_href, resp_calendar_data.
  destruct (find resp [Child (pfx "d" "href")]) as [h|]; [|reflexivity].
  destruct (find resp [Descendant (pfx "c" "calendar-data")]) as [n|];
    cbn [option_map nonblank present get].
  - reflexivity.
  - rewrite andb_false_r. reflexivity.
Qed.

Lemma nonblank_spec (o : option string) :
  nonblank o = true <-> exists s, o = Some s /\ s <> "".
Proof.
  destruct o as [s|]; cbn.
  - rewrite truthy_true. split.
    + intros H. exists s. split; [reflexivity | exact H].
    + intros [s' [E H]]. injection E as ->. exact H.
  - split; [discriminate|]. intros [s [E _]]. discriminate.
Qed.

(** C4 (as amended).  Of the N [response] elements of a multistatus
    document, calendar listing returns one entry for each of the M
    (M <= N) responses whose first [href] child has text that is not
    blank and below which a [displayname] element lies (its text may be
    empty), in document order; every other response is skipped, and the
    listing itself never fails on a parsed document. *)
Theorem calendars_items_listing (root : Element) :
  let rs := responses root in
  calendars_items root = map calendar_entry (filter calendar_listed rs) /\
  length (calendars_items root) = length (filter calendar_listed rs) /\
  (length (filter calendar_listed rs) <= length rs)%nat /\
  (forall resp : Element,
      calendar_listed resp = true <->
      (exists h, resp_href resp = Some h /\ h <> "") /\
      (exists n, resp_displayname resp = Some n)) /\
  (forall home_href txt : string,
      fromstring txt = Some root ->
      listing_of home_href txt =
        Ok {| listing_home := home_href;
              listing_items := map calendar_entry (filter calendar_listed rs) |}).
Proof.
  intros rs.
  assert (E : calendars_items root = map calendar_entry (filter calendar_listed rs)).
  { unfold calendars_items. fold (responses root). fold rs.
    rewrite (fold_left_collect calendar_listed calendar_entry calendars_step
               calendars_step_spec).
    reflexivity. }
  split; [exact E|]. split; [rewrite E; apply length_map|].
  split; [apply filter_length_le|]. split.
  - intros resp. unfold calendar_listed. rewrite andb_true_iff, nonblank_spec.
    destruct (resp_displayname resp) as [n|]; cbn [present]; split.
    + intros [H _]. split; [exact H | exists n; reflexivity].
    + intros [H _]. split; [exact H | reflexivity].
    + intros [_ H]. discriminate.
    + intros [_ [n H]]. discriminate.
  - intros home_href txt Hp. unfold listing_of. rewrite Hp, E. reflexivity.
Qed.

(** C5 (as amended).  The result of an event query holds a pair for a
    response exactly when the response's first [href] child and the
    first [calendar-data] element below it both have text that is not
    blank; every other response is dropped without an error, and the
    pairs come in document order. *)
Theorem events_items_pairs (root : Element) :
  let rs := responses root in
  events_items root = map event_entry (filter event_listed rs) /\
  (forall resp : Element,
      event_listed resp = true <->
      (exists h, resp_href resp = Some h /\ h <> "") /\
      (exists d, resp_calendar_data resp = Some d /\ d <> "")) /\
  (forall p : string * string,
      In p (events_items root) <->
      exists resp, In resp rs /\ event_listed resp = true /\ p = event_entry resp).
Proof.
  intros rs.
  assert (E : events_items root = map event_entry (filter event_listed rs)).
  { unfold events_items. fold (responses root). fold rs.
    rewrite (fold_left_collect event_listed event_entry events_step
               events_step_spec).
    reflexivity. }
  split; [exact E|]. split.
  - intros resp. unfold event_listed.
    rewrite andb_true_iff, !nonblank_spec. reflexivity.
  - intros p. rewrite E, in_map_iff. split.
    + intros [resp [Hp Hin]]. apply filter_In in Hin. destruct Hin as [Hin Hk].
      exists resp. repeat split; [exact Hin | exact Hk | symmetry; exact Hp].
    + intros [resp [Hin [Hk Hp]]]. exists resp. split; [symmetry; exact Hp|].
      apply filter_In. split; [exact Hin | exact Hk].
Qed.

(** ** Line endings of the event document *)

Lemma has_char_app (c : ascii) (s t : string) :
  has_char c (s ++ t) = has_char c s || has_char c t.
Proof.
  induction s as [|x s IH]; [reflexivity|].
  simpl. rewrite IH. apply orb_assoc.
Qed.

Lemma bare_lf_line (l rest : string) (prev_cr : bool) :
  has_char Py.LF l = false ->
  bare_lf_from prev_cr (l ++ Py.CRLF ++ rest) = bare_lf_from false rest.
Proof.
  revert prev_cr. induction l as [|c l IH]; intros prev_cr H.
  - reflexivity.
  - simpl in H. apply orb_false_iff in H. destruct H as [Hc Hl].
    cbn [String.append bare_lf_from]. rewrite Hc. cbn [andb orb].
    apply IH. exact Hl.
Qed.

Lemma terminate_all_no_bare_lf (ls : list string) :
  Forall (fun l => has_char Py.LF l = false) ls ->
  has_bare_lf (terminate_all ls) = false.
Proof.
  unfold has_bare_lf. induction 1 as [|l ls Hl _ IH]; [reflexivity|].
  cbn [terminate_all fold_right]. rewrite bare_lf_line by exact Hl.
  exact IH.
Qed.

(** The document is its thirteen property lines, each followed by
    CRLF. *)
Lemma event_ics_terminated (ev : CreateEvent) (uid_ dtstamp : string) :
  event_ics ev uid_ dtstamp =
    terminate_all (removelast (event_lines ev uid_ dtstamp)) /\
  length (removelast (event_lines ev uid_ dtstamp)) = 13%nat.
Proof. split; reflexivity. Qed.

(** The document depends on the summary, the two timestamps, the
    description, the uid in use and the current time only. *)
Lemma event_ics_deterministic (ev1 ev2 : CreateEvent) (u1 u2 t1 t2 : string) :
  summary ev1 = summary ev2 -> dtstart_z ev1 = dtstart_z ev2 ->
  dtend_z ev1 = dtend_z ev2 -> description ev1 = description ev2 ->
  u1 = u2 -> t1 = t2 ->
  event_ics ev1 u1 t1 = event_ics ev2 u2 t2.
Proof.
  intros Hs Ha Hb Hd -> ->.
  unfold event_ics, event_lines, event_description.
  rewrite Hs, Ha, Hb, Hd. reflexivity.
Qed.

(** X17.  When the fields that are copied as they are hold no line feed, the
    document holds no bare line feed. *)
Lemma event_ics_no_bare_lf (ev : CreateEvent) (uid_ dtstamp : string) :
  has_char Py.LF uid_ = false -> has_char Py.LF dtstamp = false ->
  has_char Py.LF (dtstart_z ev) = false -> has_char Py.LF (dtend_z ev) = false ->
  has_char Py.LF (summary ev) = false ->
  has_bare_lf (event_ics ev uid_ dtstamp) = false.
Proof.
  intros Hu Ht Ha Hb Hs.
  rewrite (proj1 (event_ics_terminated ev uid_ dtstamp)).
  apply terminate_all_no_bare_lf.
  cbn [event_lines removelast].
  repeat constructor; rewrite ?has_char_app, ?event_description_get,
    ?escape_newlines_no_lf, ?Hu, ?Ht, ?Ha, ?Hb, ?Hs; reflexivity.
Qed.

(** X12.  The event query sends one REPORT at depth 1 and, on a parsed answer,
    returns what its loop collects. *)
Lemma events_run (tr : TimeRange) (key : option string) (st : St) :
  require_key key st = (Ok tt, st) ->
  ensure_env st = (Ok tt, st) ->
  events tr key st =
    (pairs_of (dav_result (fst (http (report tr) (world st)))),
     {| world := snd (http (report tr) (world st));
        sent := (sent st ++ [report tr])%list |}).
Proof.
  intros Hkey Henv. unfold events, bind at 1. rewrite Hkey.
  unfold bind at 1. rewrite dav_depth by exact Henv. fold (report tr).
  destruct (dav_result (fst (http (report tr) (world st)))) as [r|e];
    [|reflexivity].
  unfold bind, parse_xml, pairs_of.
  destruct (fromstring (text r)); reflexivity.
Qed.

(** * Further properties of the routes *)

(** ** The key gate and the credential check *)

Lemma opt_eqb_eq (a b : option string) : opt_eqb a b = true <-> a = b.
Proof.
  destruct a as [x|], b as [y|]; cbn; try (split; congruence).
  rewrite String.eqb_eq. split; congruence.
Qed.

(** X1.  The key gate lets a request through exactly when no API key is
    configured (unset or empty) or the header carries the configured key;
    otherwise it raises 401, and in either case it leaves the state as it
    is. *)
Theorem require_key_gate (key : option string) (st : St) :
  (require_key key st = (Ok tt, st) <->
   opt_truthy (API_KEY cfg) = false \/ key = API_KEY cfg) /\
  (require_key key st = (Ok tt, st) \/
   require_key key st = (Raise invalid_key, st)).
Proof.
  unfold require_key.
  destruct (opt_truthy (API_KEY cfg)) eqn:Hk; cbn [andb].
  - destruct (opt_eqb key (API_KEY cfg)) eqn:He; cbn [negb]; unfold raise, ret.
    + apply opt_eqb_eq in He. split; [|left; reflexivity].
      split; [intros _; right; exact He | reflexivity].
    + split; [|right; reflexivity]. split; [discriminate|].
      intros [H|H]; [discriminate|].
      apply opt_eqb_eq in H. congruence.
  - unfold ret. split; [|left; reflexivity].
    split; [intros _; left; reflexivity | reflexivity].
Qed.

Lemma require_key_rejects (key : option string) (k : string) (st : St) :
  API_KEY cfg = Some k -> k <> "" -> key <> Some k ->
  require_key key st = (Raise invalid_key, st).
Proof.
  intros Hk Hne Hkey. unfold require_key. rewrite Hk. cbn [opt_truthy].
  apply truthy_true in Hne. rewrite Hne.
  destruct (opt_eqb key (Some k)) eqn:E.
  - apply opt_eqb_eq in E. contradiction.
  - reflexivity.
Qed.

(** X2.  With an API key configured, a request that carries no key or another
    key is refused by every route with 401 before anything is sent: the
    log of requests and the world stay as they are. *)
Theorem wrong_key_sends_nothing (key : option string) (k : string) (st : St) :
  API_KEY cfg = Some k -> k <> "" -> key <> Some k ->
  health key st = (Raise invalid_key, st) /\
  principal key st = (Raise invalid_key, st) /\
  principal_xml key st = (Raise invalid_key, st) /\
  home key st = (Raise invalid_key, st) /\
  calendars key st = (Raise invalid_key, st) /\
  (forall tr, events tr key st = (Raise invalid_key, st)) /\
  (forall ev, create ev key st = (Raise invalid_key, st)) /\
  (forall d, delete d key st = (Raise invalid_key, st)).
Proof.
  intros Hk Hne Hkey.
  pose proof (require_key_rejects st Hk Hne Hkey) as H.
  repeat split; intros;
    unfold health, principal, principal_xml, home, calendars, events, create, delete;
    unfold bind at 1; rewrite H; reflexivity.
Qed.

Lemma ensure_env_missing (st : St) :
  opt_truthy (APPLE_ID cfg) = false \/ opt_truthy (APPLE_PW cfg) = false ->
  ensure_env st = (Raise misconfigured, st).
Proof.
  intros H. unfold ensure_env.
  destruct H as [H|H]; rewrite H; cbn [negb orb]; [reflexivity|].
  rewrite orb_true_r. reflexivity.
Qed.

Lemma dav_missing (m u : string) (hs : list (string * string))
    (b : option string) (x : bool) (st : St) :
  opt_truthy (APPLE_ID cfg) = false \/ opt_truthy (APPLE_PW cfg) = false ->
  dav m u hs b x st = (Raise misconfigured, st).
Proof.
  intros H. unfold dav, bind. rewrite (ensure_env_missing st H). reflexivity.
Qed.

(** X3.  When the Apple ID or the app password is missing (unset or empty),
    every route that goes through [dav] fails with 500 and sends nothing,
    the retry of the calendar listing included.  [create] and [delete]
    call [requests] themselves and do not look at the credentials: they
    send their request all the same. *)
Theorem missing_credentials (key : option string) (st : St) :
  require_key key st = (Ok tt, st) ->
  opt_truthy (APPLE_ID cfg) = false \/ opt_truthy (APPLE_PW cfg) = false ->
  principal key st = (Raise misconfigured, st) /\
  principal_xml key st = (Raise misconfigured, st) /\
  home key st = (Raise misconfigured, st) /\
  calendars key st = (Raise misconfigured, st) /\
  (forall h, calendars_from h st = (Raise misconfigured, st)) /\
  (forall tr, events tr key st = (Raise misconfigured, st)) /\
  (forall ev, sent (after (create ev key) st) =
              (sent st ++ [create_request ev st])%list) /\
  (forall d, sent (after (delete d key) st) =
             (sent st ++ [delete_request (resolve cfg (href d))])%list).
Proof.
  intros Hkey Henv.
  assert (Hp : principal key st = (Raise misconfigured, st)).
  { unfold principal, bind at 1. rewrite Hkey.
    unfold bind at 1. cbn [principal_loop]. unfold bind at 1.
    rewrite dav_missing by exact Henv. reflexivity. }
  assert (Hh : home key st = (Raise misconfigured, st)).
  { unfold home, bind at 1. rewrite Hkey. unfold bind at 1. rewrite Hp.
    reflexivity. }
  split; [exact Hp|]. split.
  { unfold principal_xml, bind at 1. rewrite Hkey. unfold bind at 1.
    rewrite dav_missing by exact Henv. reflexivity. }
  split; [exact Hh|]. split.
  { unfold calendars, bind at 1. rewrite Hkey. unfold bind at 1. rewrite Hh.
    reflexivity. }
  split.
  { intros h. unfold calendars_from, bind at 1, try_except, do_list.
    unfold bind at 1. rewrite dav_missing by exact Henv.
    unfold bind at 1. rewrite dav_missing by exact Henv. reflexivity. }
  split.
  { intros tr. unfold events, bind at 1. rewrite Hkey. unfold bind at 1.
    rewrite dav_missing by exact Henv. reflexivity. }
  split.
  - intros ev. unfold after. rewrite create_run by exact Hkey. reflexivity.
  - intros d. unfold after. rewrite delete_run by exact Hkey. reflexivity.
Qed.

(** ** What the routes send *)

Lemma emits_nothing {A} (P : Request -> Prop) (n : nat) (m : M A) :
  (forall st, snd (m st) = st) -> emits P n m.
Proof.
  intros H st. exists []. rewrite H, app_nil_r.
  split; [reflexivity|]. split; [cbn; lia | constructor].
Qed.

Lemma emits_ret {A} (P : Request -> Prop) (n : nat) (a : A) : emits P n (ret a).
Proof. apply emits_nothing. reflexivity. Qed.

Lemma emits_raise {A} (P : Request -> Prop) (n : nat) (s : Z) (d : string) :
  emits P n (@raise A s d).
Proof. apply emits_nothing. reflexivity. Qed.

Lemma emits_le {A} (P : Request -> Prop) (n n' : nat) (m : M A) :
  emits P n m -> (n <= n')%nat -> emits P n' m.
Proof.
  intros H Hle st. destruct (H st) as [rs [E [L F]]].
  exists rs. split; [exact E|]. split; [lia | exact F].
Qed.

Lemma emits_bind {A B} (P : Request -> Prop) (n k : nat) (m : M A) (f : A -> M B) :
  emits P n m -> (forall a, emits P k (f a)) -> emits P (n + k) (bind m f).
Proof.
  intros Hm Hf st. unfold bind.
  destruct (Hm st) as [rs1 [E1 [L1 F1]]].
  destruct (m st) as [[a|e] s1]; cbn [snd] in E1.
  - destruct (Hf a s1) as [rs2 [E2 [L2 F2]]].
    exists (rs1 ++ rs2)%list. rewrite E2, E1, app_assoc.
    split; [reflexivity|]. split; [rewrite length_app; lia|].
    apply Forall_app. split; assumption.
  - exists rs1. cbn [snd]. split; [exact E1|]. split; [lia | exact F1].
Qed.

Lemma emits_try {A} (P : Request -> Prop) (n k : nat) (m h : M A) :
  emits P n m -> emits P k h -> emits P (n + k) (try_except m h).
Proof.
  intros Hm Hh st. unfold try_except.
  destruct (Hm st) as [rs1 [E1 [L1 F1]]].
  destruct (m st) as [[a|e] s1]; cbn [snd] in E1.
  - exists rs1. cbn [snd]. split; [exact E1|]. split; [lia | exact F1].
  - destruct (Hh s1) as [rs2 [E2 [L2 F2]]].
    exists (rs1 ++ rs2)%list. rewrite E2, E1, app_assoc.
    split; [reflexivity|]. split; [rewrite length_app; lia|].
    apply Forall_app. split; assumption.
Qed.

Lemma emits_send (P : Request -> Prop) (r : Request) :
  P r -> emits P 1 (send r).
Proof.
  intros H st. unfold send. destruct (http r (world st)) as [o w].
  exists [r]. cbn [snd sent]. split; [reflexivity|].
  split; [cbn; lia | repeat constructor; exact H].
Qed.

Lemma emits_require_key (P : Request -> Prop) (n : nat) (key : option string) :
  emits P n (require_key key).
Proof.
  unfold require_key.
  destruct (opt_truthy (API_KEY cfg) && negb (opt_eqb key (API_KEY cfg)));
    [apply emits_raise | apply emits_ret].
Qed.

Lemma emits_dav (P : Request -> Prop) (m u : string)
    (hs : list (string * string)) (b : option string) (x : bool) :
  (forall r, method r = m -> url r = u -> P r) ->
  emits P 1 (dav m u hs b x).
Proof.
  intros H. unfold dav. apply (@emits_bind _ _ P 0 1).
  - unfold ensure_env.
    destruct (negb (opt_truthy (APPLE_ID cfg)) || negb (opt_truthy (APPLE_PW cfg)));
      [apply emits_raise | apply emits_ret].
  - intros _. apply (@emits_bind _ _ P 1 0).
    + apply emits_send. apply H; reflexivity.
    + intros [r|msg]; [|apply emits_raise].
      destruct (400 <=? status_code r); [apply emits_raise | apply emits_ret].
Qed.

Lemma emits_parse_xml (P : Request -> Prop) (n : nat) (xml : string) :
  emits P n (parse_xml xml).
Proof.
  unfold parse_xml. destruct (fromstring xml); [apply emits_ret | apply emits_raise].
Qed.

Lemma emits_extract (P : Request -> Prop) (xml : string) :
  emits P 0 (extract_principal_href xml).
Proof.
  unfold extract_principal_href. apply (@emits_bind _ _ P 0 0).
  - apply emits_parse_xml.
  - intros root. apply emits_ret.
Qed.

Lemma resolve_absolute (h : string) :
  is_absolute (BASE cfg) = true -> is_absolute (resolve cfg h) = true.
Proof.
  intros Hb. unfold resolve. destruct (is_absolute h) eqn:E; [exact E|].
  apply is_absolute_app. exact Hb.
Qed.

Lemma emits_principal_loop (P : Request -> Prop) (paths : list string) :
  (forall r, method r = "PROPFIND" ->
             (exists path, url r = BASE cfg ++ path) -> P r) ->
  emits P (length paths) (principal_loop paths).
Proof.
  intros H. induction paths as [|p ps IH]; cbn [principal_loop length].
  - apply emits_ret.
  - apply (@emits_bind _ _ P 1 (length ps)).
    + apply emits_dav. intros r Hm Hu. apply H; [exact Hm | exists p; exact Hu].
    + intros r. apply (@emits_bind _ _ P 0 (length ps)).
      * apply emits_extract.
      * intros o. destruct (opt_truthy o); [apply emits_ret | exact IH].
Qed.

Lemma discovery_base (r : Request) :
  method r = "PROPFIND" -> (exists path, url r = BASE cfg ++ path) ->
  discovery_request r.
Proof.
  intros Hm [path Hu]. split; [exact Hm|].
  intros Hb. rewrite Hu. apply is_absolute_app. exact Hb.
Qed.

Lemma emits_principal (key : option string) :
  emits discovery_request 3 (principal key).
Proof.
  unfold principal. apply (@emits_bind _ _ _ 0 3); [apply emits_require_key|].
  intros _. apply (@emits_bind _ _ _ 2 1).
  - apply (emits_principal_loop discovery_request
             ["/.well-known/caldav"; "/"] discovery_base).
  - intros [h|]; [apply emits_ret|].
    apply (@emits_bind _ _ _ 1 0).
    + apply emits_dav. intros r Hm Hu. apply discovery_base; [exact Hm|].
      exists "/". exact Hu.
    + intros r. apply (@emits_bind _ _ _ 0 0); [apply emits_extract|].
      intros [h|]; [destruct (Py.truthy h)|];
        [apply emits_ret | apply emits_raise | apply emits_raise].
Qed.

Lemma emits_home (key : option string) :
  emits discovery_request 4 (home key).
Proof.
  unfold home. apply (@emits_bind _ _ _ 0 4); [apply emits_require_key|].
  intros _. apply (@emits_bind _ _ _ 3 1); [apply emits_principal|].
  intros p. apply (@emits_bind _ _ _ 1 0).
  - apply emits_dav. intros r Hm Hu. apply discovery_base; [exact Hm|].
    exists p. exact Hu.
  - intros r. apply (@emits_bind _ _ _ 0 0); [apply emits_parse_xml|].
    intros root.
    destruct (or_opt _ _) as [h|]; [destruct (Py.truthy h)|];
      [apply emits_ret | apply emits_raise | apply emits_raise].
Qed.

Lemma emits_calendars_from (home_href : string) :
  emits discovery_request 2 (calendars_from home_href).
Proof.
  assert (Hd : forall ns_ok, emits discovery_request 1 (do_list home_href ns_ok)).
  { intros ns_ok. unfold do_list. apply (@emits_bind _ _ _ 1 0).
    - apply emits_dav. intros r Hm Hu. split; [exact Hm|].
      intros Hb. rewrite Hu. apply resolve_absolute. exact Hb.
    - intros r. apply emits_ret. }
  unfold calendars_from. apply (@emits_bind _ _ _ 2 0).
  - apply (@emits_try _ _ 1 1); apply Hd.
  - intros res. apply (@emits_bind _ _ _ 0 0); [apply emits_parse_xml|].
    intros root. apply emits_ret.
Qed.

(** X5.  The discovery routes only read: [health] sends nothing, [principal]
    at most three requests, [principal_xml] at most one, [home] at most
    four and [calendars] at most six (three for the principal, one for
    the home set, two for the listing), whatever the server answers.
    Every one of them is a PROPFIND, and goes to an absolute [http(s)]
    URL when the base URL is one. *)
Theorem discovery_budget (key : option string) :
  emits (fun _ => False) 0 (health key) /\
  emits discovery_request 3 (principal key) /\
  emits discovery_request 1 (principal_xml key) /\
  emits discovery_request 4 (home key) /\
  emits discovery_request 6 (calendars key).
Proof.
  split.
  { unfold health. apply (@emits_bind _ _ _ 0 0); [apply emits_require_key|].
    intros _. apply emits_ret. }
  split; [apply emits_principal|]. split.
  { unfold principal_xml. apply (@emits_bind _ _ _ 0 1); [apply emits_require_key|].
    intros _. apply (@emits_bind _ _ _ 1 0).
    - apply emits_dav. intros r Hm Hu. apply discovery_base; [exact Hm|].
      exists "/". exact Hu.
    - intros r. apply emits_ret. }
  split; [apply emits_home|].
  unfold calendars. apply (@emits_bind _ _ _ 0 6); [apply emits_require_key|].
  intros _. apply (@emits_bind _ _ _ 4 2); [apply emits_home|].
  intros h. apply emits_calendars_from.
Qed.


(** ** The discovery chain *)

(** X7.  Of the four paths [extract_principal_href] tries, the last two are
    the first two written with the namespace spelled out: they select the
    same elements, so the result is decided by the first two alone, with
    [current-user-principal] taking precedence over [principal-URL]. *)
Theorem principal_href_two_paths (root : Element) :
  let cup := [Descendant (clark "DAV:" "current-user-principal");
              Child (clark "DAV:" "href")] in
  let purl := [Descendant (clark "DAV:" "principal-URL");
               Child (clark "DAV:" "href")] in
  first_text root principal_paths = first_text root [cup; purl] /\
  (forall v, find_text root cup = Some v -> v <> "" ->
             first_text root principal_paths = Some v) /\
  (forall v, nonblank (find_text root cup) = false ->
             find_text root purl = Some v -> v <> "" ->
             first_text root principal_paths = Some v) /\
  (nonblank (find_text root cup) = false ->
   nonblank (find_text root purl) = false ->
   first_text root principal_paths = None).
Proof.
  intros cup purl.
  change principal_paths with [cup; purl; cup; purl].
  cbn [first_text].
  destruct (find_text root cup) as [a|] eqn:Ea;
    destruct (find_text root purl) as [b|] eqn:Eb; cbn [nonblank];
    try destruct (Py.truthy a) eqn:Ta; try destruct (Py.truthy b) eqn:Tb;
    repeat split; try reflexivity; try discriminate;
    intros; try congruence;
    repeat match goal with
           | H : Some _ = Some _ |- _ => injection H as <-
           | H : ?x <> "" |- _ => apply truthy_true in H
           end; congruence.
Qed.

(** X8.  [home] runs principal discovery and, when that yields [p], sends one
    depth-0 PROPFIND to the base URL followed by [p] (without testing
    whether [p] is already absolute).  It returns the trimmed text of the
    first [calendar-home-set/href] when that is not empty and fails with
    500 otherwise; an error of principal discovery or of the request is
    passed on as it is. *)
Theorem home_after_principal (key : option string) (st : St) :
  require_key key st = (Ok tt, st) ->
  ensure_env st = (Ok tt, st) ->
  home key st =
    match principal key st with
    | (Raise e, s1) => (Raise e, s1)
    | (Ok p, s1) =>
        let req := propfind (BASE cfg ++ p) "0" body_home in
        (home_result (dav_result (fst (http req (world s1)))),
         {| world := snd (http req (world s1));
            sent := (sent s1 ++ [req])%list |})
    end.
Proof.
  intros Hkey Henv. unfold home, bind at 1. rewrite Hkey.
  unfold bind at 1. destruct (principal key st) as [[p|e] s1]; [|reflexivity].
  unfold bind at 1.
  rewrite dav_propfind by exact (@ensure_env_any st s1 Henv).
  cbv zeta.
  destruct (dav_result _) as [r|e]; [|reflexivity].
  unfold bind, parse_xml. cbn [home_result].
  destruct (fromstring (text r)) as [root|]; [|reflexivity].
  unfold ret at 1. cbv beta iota.
  change [Descendant (clark "urn:ietf:params:xml:ns:caldav" "calendar-home-set");
          Child (clark "DAV:" "href")] with home_set_path.
  change [Descendant (pfx "c" "calendar-home-set"); Child (pfx "d" "href")]
    with home_set_path.
  unfold or_opt.
  destruct (find_text root home_set_path) as [h|]; cbn [opt_truthy]; [|reflexivity].
  destruct (Py.truthy h) eqn:T; cbv beta iota; rewrite T; reflexivity.
Qed.

(** X9.  [calendars] is [home] followed by the listing against the href that
    [home] found: an error of [home] ends the route before any listing
    request, and the [home] field of a listing is the href [home]
    returned. *)
Theorem calendars_after_home (key : option string) (st : St) :
  require_key key st = (Ok tt, st) ->
  calendars key st =
    match home key st with
    | (Raise e, s1) => (Raise e, s1)
    | (Ok h, s1) => calendars_from h s1
    end /\
  (forall l s2, calendars key st = (Ok l, s2) ->
                exists s1, home key st = (Ok (listing_home l), s1) /\
                           calendars_from (listing_home l) s1 = (Ok l, s2)).
Proof.
  intros Hkey.
  assert (E : calendars key st =
              match home key st with
              | (Raise e, s1) => (Raise e, s1)
              | (Ok h, s1) => calendars_from h s1
              end).
  { unfold calendars, bind at 1. rewrite Hkey. unfold bind at 1.
    destruct (home key st) as [[h|e] s1]; reflexivity. }
  split; [exact E|].
  intros l s2. rewrite E.
  destruct (home key st) as [[h|e] s1]; [|discriminate].
  intros H. exists s1.
  assert (Hh : listing_home l = h).
  { revert H. unfold calendars_from, bind.
    destruct (try_except _ _ s1) as [[res|e] s']; [|discriminate].
    unfold parse_xml. destruct (fromstring res); unfold ret, raise;
      [|discriminate].
    intros H. injection H as <- _. reflexivity. }
  rewrite Hh. split; [reflexivity | exact H].
Qed.

(** ** Trimmed results *)

Lemma lstrip_first (s : string) (c : ascii) :
  first_char (Py.lstrip s) = Some c -> Py.isspace c = false.
Proof.
  induction s as [|x s IH]; cbn [Py.lstrip]; [discriminate|].
  destruct (Py.isspace x) eqn:E; [exact IH|].
  cbn. intros H. injection H as <-. exact E.
Qed.

Lemma rstrip_first (s : string) (c : ascii) :
  first_char (Py.rstrip s) = Some c -> first_char s = Some c.
Proof.
  destruct s as [|x s]; cbn [Py.rstrip]; [discriminate|].
  destruct (Py.rstrip s); [destruct (Py.isspace x)|]; cbn; congruence.
Qed.

Lemma rstrip_last (s : string) (c : ascii) :
  last_char (Py.rstrip s) = Some c -> Py.isspace c = false.
Proof.
  induction s as [|x s IH]; cbn [Py.rstrip]; [discriminate|].
  destruct (Py.rstrip s) as [|y r].
  - destruct (Py.isspace x) eqn:E; cbn; [discriminate|].
    intros H. injection H as <-. exact E.
  - exact IH.
Qed.

Lemma strip_trimmed (s : string) : trimmed (Py.strip s).
Proof.
  unfold trimmed, Py.strip. split; intros c H.
  - apply (lstrip_first s). apply rstrip_first. exact H.
  - apply (rstrip_last _ H).
Qed.

Lemma text_or_empty_trimmed (e : Element) : trimmed (text_or_empty e).
Proof. apply strip_trimmed. Qed.

Lemma trimmed_empty : trimmed "".
Proof. split; intros c H; discriminate. Qed.

Lemma get_text_trimmed (o : option Element) :
  trimmed (get (option_map text_or_empty o)).
Proof. destruct o; [apply text_or_empty_trimmed | apply trimmed_empty]. Qed.

Lemma find_text_trimmed (root : Element) (p : Path) (v : string) :
  find_text root p = Some v -> trimmed v.
Proof.
  unfold find_text. destruct (find root p) as [e|]; [|discriminate].
  destruct (opt_truthy (el_text e)); [|discriminate].
  intros H. injection H as <-. apply text_or_empty_trimmed.
Qed.

Lemma first_text_trimmed (root : Element) (ps : list Path) (v : string) :
  first_text root ps = Some v -> trimmed v.
Proof.
  induction ps as [|p ps IH]; cbn [first_text]; [discriminate|].
  destruct (find_text root p) as [w|] eqn:E; [|exact IH].
  destruct (Py.truthy w); [|exact IH].
  intros H. injection H as <-. exact (find_text_trimmed _ _ E).
Qed.

(** X10.  Every entry of a calendar listing has an href that is not empty, and
    href and displayname carry no white space at either end; every pair
    of an event query has an href and a document that are not empty and
    carry no white space at either end. *)
Theorem listed_entries_trimmed (root : Element) :
  Forall (fun e => fst e <> "" /\ trimmed (fst e) /\ trimmed (snd e))
         (calendars_items root) /\
  Forall (fun e => fst e <> "" /\ snd e <> "" /\
                   trimmed (fst e) /\ trimmed (snd e))
         (events_items root).
Proof.
  split.
  - unfold calendars_items.
    rewrite (fold_left_collect calendar_listed calendar_entry calendars_step
               calendars_step_spec).
    cbn [app]. apply Forall_forall. intros e He.
    apply in_map_iff in He. destruct He as [resp [<- Hin]].
    apply filter_In in Hin. destruct Hin as [_ Hk].
    unfold calendar_listed in Hk. apply andb_true_iff in Hk.
    destruct Hk as [Hh _]. apply nonblank_spec in Hh.
    destruct Hh as [h [Eh Hne]].
    unfold calendar_entry. cbn [fst snd]. rewrite Eh. cbn [get].
    split; [exact Hne|]. split.
    + replace h with (get (resp_href resp)) by (rewrite Eh; reflexivity).
      apply get_text_trimmed.
    + apply get_text_trimmed.
  - unfold events_items.
    rewrite (fold_left_collect event_listed event_entry events_step
               events_step_spec).
    cbn [app]. apply Forall_forall. intros e He.
    apply in_map_iff in He. destruct He as [resp [<- Hin]].
    apply filter_In in Hin. destruct Hin as [_ Hk].
    unfold event_listed in Hk. apply andb_true_iff in Hk.
    destruct Hk as [Hh Hd]. apply nonblank_spec in Hh, Hd.
    destruct Hh as [h [Eh Hne]]. destruct Hd as [d [Ed Hnd]].
    unfold event_entry. cbn [fst snd].
    split; [rewrite Eh; exact Hne|]. split; [rewrite Ed; exact Hnd|].
    split; apply get_text_trimmed.
Qed.

Lemma extract_some (xml : string) (s s' : St) (h : string) :
  extract_principal_href xml s = (Ok (Some h), s') -> h <> "" /\ trimmed h.
Proof.
  unfold extract_principal_href, parse_xml, bind.
  destruct (fromstring xml) as [root|]; unfold ret, raise; [|discriminate].
  intros H.
  assert (E : first_text root principal_paths = Some h) by congruence.
  split.
  - apply truthy_true. exact (first_text_truthy _ _ E).
  - exact (first_text_trimmed _ _ E).
Qed.

Lemma principal_loop_some (paths : list string) (s s' : St) (h : string) :
  principal_loop paths s = (Ok (Some h), s') -> h <> "" /\ trimmed h.
Proof.
  revert s. induction paths as [|p ps IH]; intros s; cbn [principal_loop].
  - unfold ret. discriminate.
  - unfold bind at 1. destruct (dav _ _ _ _ _ s) as [[r|e] s1]; [|discriminate].
    unfold bind at 1.
    destruct (extract_principal_href (text r) s1) as [[o|e] s2] eqn:E;
      [|discriminate].
    destruct (opt_truthy o).
    + unfold ret. intros H.
      assert (Ho : o = Some h) by congruence. subst o.
      exact (extract_some _ _ E).
    + apply IH.
Qed.

(** X11.  A principal href or a calendar-home href that discovery returns is
    never empty and carries no white space at either end. *)
Theorem discovered_hrefs_trimmed (key : option string) (st : St) :
  (forall h s', principal key st = (Ok h, s') -> h <> "" /\ trimmed h) /\
  (forall h s', home key st = (Ok h, s') -> h <> "" /\ trimmed h).
Proof.
  split; intros h s'.
  - unfold principal, bind at 1.
    destruct (require_key key st) as [[[]|e] s0]; [|discriminate].
    unfold bind at 1.
    destruct (principal_loop _ s0) as [[[h0|]|e] s1] eqn:El; [| |discriminate].
    + unfold ret. intros H.
      assert (h0 = h) by congruence. subst h0.
      exact (principal_loop_some _ _ El).
    + unfold bind at 1. destruct (dav _ _ _ _ _ s1) as [[r|e] s2]; [|discriminate].
      unfold bind.
      destruct (extract_principal_href (text r) s2) as [[[h1|]|e] s3] eqn:E;
        unfold raise; try discriminate.
      destruct (Py.truthy h1); unfold ret, raise; [|discriminate].
      intros H. assert (h1 = h) by congruence. subst h1.
      exact (extract_some _ _ E).
  - unfold home, bind at 1.
    destruct (require_key key st) as [[[]|e] s0]; [|discriminate].
    unfold bind at 1. destruct (principal key s0) as [[p|e] s1]; [|discriminate].
    unfold bind at 1. destruct (dav _ _ _ _ _ s1) as [[r|e] s2]; [|discriminate].
    unfold bind, parse_xml.
    destruct (fromstring (text r)) as [root|]; unfold ret at 1, raise at 1;
      [|discriminate].
    unfold or_opt.
    match goal with
    | |- context [if opt_truthy ?a then ?a else ?b] =>
        destruct a as [x|] eqn:Ea; cbn [opt_truthy];
        [destruct (Py.truthy x) eqn:Tx|];
        [| destruct b as [y|] eqn:Eb | destruct b as [y|] eqn:Eb]
    end; unfold raise; try discriminate.
    + rewrite Tx. unfold ret. intros H. assert (x = h) by congruence. subst x.
      split; [apply truthy_true; exact Tx | exact (find_text_trimmed _ _ Ea)].
    + destruct (Py.truthy y) eqn:Ty; unfold ret, raise; [|discriminate].
      intros H. assert (y = h) by congruence. subst y.
      split; [apply truthy_true; exact Ty | exact (find_text_trimmed _ _ Eb)].
    + destruct (Py.truthy y) eqn:Ty; unfold ret, raise; [|discriminate].
      intros H. assert (y = h) by congruence. subst y.
      split; [apply truthy_true; exact Ty | exact (find_text_trimmed _ _ Eb)].
Qed.

(** ** The outcome of a [dav] call *)

(** X4.  With the credentials configured, [dav] sends exactly one request,
    with the method, URL and body it was given and the configured
    credentials.  An answer with a status below 400 (redirects and
    informational answers included) is returned; a status of 400 or more
    is raised as an exception with that status and the body text, or the
    reason phrase when the body is empty; a failure of the transport is
    raised as 502. *)
Theorem dav_outcome (m u : string) (hs : list (string * string))
    (b : option string) (x : bool) (st : St) :
  ensure_env st = (Ok tt, st) ->
  exists req : Request,
    sent (after (dav m u hs b x) st) = (sent st ++ [req])%list /\
    world (after (dav m u hs b x) st) = snd (http req (world st)) /\
    method req = m /\ url req = u /\ data req = b /\
    auth req = (APPLE_ID cfg, APPLE_PW cfg) /\
    match fst (http req (world st)) with
    | RequestException msg =>
        run (dav m u hs b x) st =
          Raise {| exc_status := 502;
                   exc_detail := "Upstream request failed: " ++ msg |}
    | Responded r =>
        (status_code r < 400 -> run (dav m u hs b x) st = Ok r) /\
        (400 <= status_code r ->
         run (dav m u hs b x) st =
           Raise {| exc_status := status_code r;
                    exc_detail := if String.eqb (text r) "" then reason r
                                  else text r |})
    end.
Proof.
  intros Henv. unfold run, after, dav, bind. rewrite Henv. unfold send.
  match goal with |- context [http ?r (world st)] => exists r end.
  destruct (http _ (world st)) as [o w]. cbn [fst snd].
  destruct o as [r|msg].
  - destruct (Z.leb_spec 400 (status_code r)) as [Hge|Hlt];
      unfold raise, ret; cbn [fst snd sent world]; rewrite ?or_str_spec;
      repeat split; try reflexivity; intros; try lia.
  - unfold raise. cbn [fst snd sent world]. repeat split; reflexivity.
Qed.

(** ** The base URL *)

Lemma rstrip_slash_last (s : string) :
  last_char (Py.rstrip_slash s) <> Some "/"%char.
Proof.
  induction s as [|c s IH]; cbn [Py.rstrip_slash]; [discriminate|].
  destruct (Py.rstrip_slash s) as [|d r].
  - destruct (Ascii.eqb_spec c "/"); cbn; [discriminate | congruence].
  - exact IH.
Qed.

Lemma rstrip_slash_split (s : string) :
  exists t, only_slashes t = true /\ s = Py.rstrip_slash s ++ t.
Proof.
  induction s as [|c s [t [Ht Es]]]; cbn [Py.rstrip_slash].
  - exists "". split; reflexivity.
  - destruct (Py.rstrip_slash s) as [|d r].
    + destruct (Ascii.eqb_spec c "/") as [->|N].
      * exists (String "/" t). cbn in Es. subst s.
        split; [cbn; exact Ht | reflexivity].
      * exists t. cbn in Es. subst s. split; [exact Ht | reflexivity].
    + exists t. split; [exact Ht|]. cbn. rewrite Es at 1. reflexivity.
Qed.

(** X13.  The base URL in use never ends with a slash: it is the configured
    [BASE_URL] (or the iCloud default) with all trailing slashes, and
    nothing else, removed. *)
Theorem base_without_trailing_slash (c : Config) :
  last_char (BASE c) <> Some "/"%char /\
  exists t, only_slashes t = true /\
            match BASE_URL c with
            | Some u => u
            | None => "https://caldav.icloud.com"
            end = BASE c ++ t.
Proof.
  unfold BASE. split; [apply rstrip_slash_last | apply rstrip_slash_split].
Qed.

(** ** Uids, hrefs and descriptions across calls *)

Lemma upper_char_idem (c : ascii) :
  Py.upper_char (Py.upper_char c) = Py.upper_char c.
Proof. destruct c as [[] [] [] [] [] [] [] []]; reflexivity. Qed.

Lemma upper_idem (s : string) : Py.upper (Py.upper s) = Py.upper s.
Proof.
  induction s as [|c s IH]; [reflexivity|].
  cbn [Py.upper]. rewrite upper_char_idem, IH. reflexivity.
Qed.

(** X14.  The uid [create] returns is in its final form: sent back as the uid
    of a later request for the same calendar, it is used unchanged, so
    that request is a PUT to the same URL. *)
Theorem returned_uid_is_stable (ev : CreateEvent) (st st' : St) :
  let u := event_uid ev (uuid4_hex (world st)) in
  u <> "" ->
  event_uid (with_uid ev (Some u)) (uuid4_hex (world st')) = u /\
  url (create_request (with_uid ev (Some u)) st') = url (create_request ev st).
Proof.
  intros u Hne.
  assert (E : event_uid (with_uid ev (Some u)) (uuid4_hex (world st')) = u).
  { unfold event_uid at 1. cbn [with_uid uid opt_truthy].
    apply truthy_true in Hne. rewrite Hne.
    unfold u, event_uid. apply upper_idem. }
  split; [exact E|].
  unfold create_request. rewrite E. reflexivity.
Qed.

Lemma is_absolute_slash (s : string) : is_absolute (String "/" s) = false.
Proof.
  unfold is_absolute, Py.startswith. cbn [String.prefix].
  destruct (ascii_dec "h" "/") as [E|_]; [discriminate E | reflexivity].
Qed.

Lemma resolve_app (h t : string) :
  is_absolute h = true \/ Py.startswith h "/" = true ->
  resolve cfg (h ++ t) = resolve cfg h ++ t.
Proof.
  intros [H|H]; unfold resolve.
  - rewrite H, (@is_absolute_app h t H). reflexivity.
  - destruct h as [|c h]; [exfalso; cbn in H; discriminate H|].
    unfold Py.startswith in H. cbn [String.prefix] in H.
    destruct (ascii_dec "/" c) as [<-|]; [|discriminate H].
    cbn [String.append]. rewrite !is_absolute_slash.
    rewrite string_app_assoc. reflexivity.
Qed.

(** X15.  The href [create] returns addresses the resource it created: for a
    calendar href that is absolute or starts with a slash, deleting the
    returned href sends the DELETE to the URL the PUT went to. *)
Theorem delete_reaches_created (ev : CreateEvent) (key : option string)
    (st s1 s2 : St) (c : Created) :
  require_key key st = (Ok tt, st) ->
  is_absolute (calendar_href ev) = true \/
    Py.startswith (calendar_href ev) "/" = true ->
  create ev key st = (Ok c, s1) ->
  sent (after (delete {| href := created_href c |} key) s2) =
    (sent s2 ++ [delete_request (url (create_request ev st))])%list.
Proof.
  intros Hkey Hhref Hc.
  rewrite create_run in Hc by exact Hkey.
  assert (Eh : created_href c =
               calendar_href ev ++ event_uid ev (uuid4_hex (world st)) ++ ".ics").
  { destruct (fst (http (create_request ev st) (world st))) as [r|msg];
      [|discriminate].
    destruct (Py.in_Z (status_code r) [200; 201; 204]); [|discriminate].
    injection Hc as <- _. reflexivity. }
  unfold after. rewrite delete_run by exact (@require_key_any key st s2 Hkey).
  cbn [snd sent href]. rewrite Eh, resolve_app by exact Hhref. reflexivity.
Qed.

(** X16.  The escaping of the description loses information: a line feed and a
    backslash followed by [n] at the same place give the same document,
    although the two descriptions differ. *)
Theorem description_escape_collision (ev : CreateEvent) (a b uid_ dtstamp : string) :
  a ++ nl ++ b <> a ++ "\n" ++ b /\
  event_ics (with_description ev (Some (a ++ nl ++ b))) uid_ dtstamp =
  event_ics (with_description ev (Some (a ++ "\n" ++ b))) uid_ dtstamp.
Proof.
  split.
  - induction a as [|c a IH]; cbn; [discriminate|].
    intros H. injection H as H. exact (IH H).
  - unfold event_ics, event_lines. rewrite !event_description_get.
    cbn [with_description description summary dtstart_z dtend_z get].
    rewrite !escape_newlines_app. reflexivity.
Qed.

(** X18.  When the transport fails (no answer at all), [create] and [delete]
    raise 502 with the transport's message after their own prefix, and
    the request stays in the log. *)
Theorem transport_failure (key : option string) (st : St) (msg : string) :
  require_key key st = (Ok tt, st) ->
  (forall ev,
      fst (http (create_request ev st) (world st)) = RequestException msg ->
      create ev key st =
        (Raise {| exc_status := 502;
                  exc_detail := "Upstream PUT failed: " ++ msg |},
         {| world := snd (http (create_request ev st) (world st));
            sent := (sent st ++ [create_request ev st])%list |})) /\
  (forall d,
      fst (http (delete_request (resolve cfg (href d))) (world st)) =
        RequestException msg ->
      delete d key st =
        (Raise {| exc_status := 502;
                  exc_detail := "Upstream DELETE failed: " ++ msg |},
         {| world := snd (http (delete_request (resolve cfg (href d))) (world st));
            sent := (sent st ++ [delete_request (resolve cfg (href d))])%list |})).
Proof.
  intros Hkey. split.
  - intros ev H. rewrite create_run by exact Hkey. rewrite H. reflexivity.
  - intros d H. rewrite delete_run by exact Hkey. rewrite H. reflexivity.
Qed.

(** ** Href resolution, exactly *)

Lemma prefix_iff (p s : string) :
  String.prefix p s = true <-> exists rest, s = p ++ rest.
Proof.
  split.
  - revert s. induction p as [|a p IH]; intros s H.
    + exists s. reflexivity.
    + destruct s as [|b s]; cbn [String.prefix] in H; [discriminate|].
      destruct (ascii_dec a b) as [<-|]; [|discriminate].
      destruct (IH s H) as [rest ->]. exists rest. reflexivity.
  - intros [rest ->]. apply prefix_self_app.
Qed.

Lemma is_absolute_begins (h : string) : is_absolute h = true <-> begins_http h.
Proof.
  unfold is_absolute, Py.startswith, begins_http.
  rewrite orb_true_iff, !prefix_iff. split.
  - intros [[r E]|[r E]]; exists r; [left | right]; exact E.
  - intros [r [E|E]]; [left | right]; exists r; exact E.
Qed.

Lemma string_length_app (a b : string) :
  String.length (a ++ b) = (String.length a + String.length b)%nat.
Proof. induction a as [|x a IH]; cbn; [reflexivity | rewrite IH; reflexivity]. Qed.

Lemma app_twice_empty (b h : string) : b ++ b ++ h = b ++ h -> b = "".
Proof.
  intros E. apply (f_equal String.length) in E.
  rewrite !string_length_app in E.
  destruct b; [reflexivity | cbn in E; lia].
Qed.

(** C3 (as amended).  An href that begins with [http://] or [https://]
    (in these lower-case letters) is returned unchanged; any other href
    gets the configured base in front exactly once.  Resolving the result
    again changes nothing exactly when the href, or the base followed by
    the href, begins with [http://] or [https://], or the base is empty.
    Hence resolution is idempotent on every href whenever the configured
    base itself begins with [http://] or [https://]. *)
Theorem resolve_idempotent_exactly (c : Config) (h : string) :
  (begins_http h -> resolve c h = h) /\
  (~ begins_http h -> resolve c h = BASE c ++ h) /\
  (resolve c (resolve c h) = resolve c h <->
   begins_http h \/ begins_http (BASE c ++ h) \/ BASE c = "") /\
  (begins_http (BASE c) ->
   forall h' : string, resolve c (resolve c h') = resolve c h').
Proof.
  split; [|split; [|split]].
  - intros H. apply is_absolute_begins in H. unfold resolve. rewrite H. reflexivity.
  - intros H. unfold resolve. destruct (is_absolute h) eqn:E; [|reflexivity].
    apply is_absolute_begins in E. contradiction.
  - unfold resolve. destruct (is_absolute h) eqn:Eh.
    + rewrite Eh. split; [|reflexivity].
      intros _. left. apply is_absolute_begins. exact Eh.
    + destruct (is_absolute (BASE c ++ h)) eqn:Eb.
      * split; [|reflexivity].
        intros _. right. left. apply is_absolute_begins. exact Eb.
      * split.
        -- intros E. right. right. exact (app_twice_empty _ _ E).
        -- intros [H|[H|H]].
           ++ apply is_absolute_begins in H. congruence.
           ++ apply is_absolute_begins in H. congruence.
           ++ rewrite H. reflexivity.
  - intros Hb h'. apply is_absolute_begins in Hb.
    exact (proj1 (resolve_idempotent c h' Hb)).
Qed.

End Bridge.

(** * The properties on sample runs

    The routes are run against the scripted server of [Fixture]. *)

#[warnings="-notation-for-abbreviation"]
Local Notation fx_principal :=
  (@principal Fixture.World Fixture.http Fixture.fromstring Fixture.cfg).
#[warnings="-notation-for-abbreviation"]
Local Notation fx_calendars_from :=
  (@calendars_from Fixture.World Fixture.http Fixture.fromstring Fixture.cfg).
#[warnings="-notation-for-abbreviation"]
Local Notation fx_create :=
  (@create Fixture.World Fixture.http Fixture.uuid4_hex Fixture.utcnow_stamp
     Fixture.cfg).
#[warnings="-notation-for-abbreviation"]
Local Notation fx_delete :=
  (@delete Fixture.World Fixture.http Fixture.cfg).
#[warnings="-notation-for-abbreviation"]
Local Notation fx_require_key := (@require_key Fixture.World Fixture.cfg).
#[warnings="-notation-for-abbreviation"]
Local Notation fx_ensure_env := (@ensure_env Fixture.World Fixture.cfg).
#[warnings="-notation-for-abbreviation"]
Local Notation fresh w := (@Build_St Fixture.World w []).


(** A base URL whose scheme is written in capitals is put in front a
    second time; and an href with such a scheme gets the base in front. *)
Lemma resolve_not_idempotent_counterexample :
  resolve Sample.cfg_capital_scheme "/x" = "HTTPS://caldav.example.org/x" /\
  resolve Sample.cfg_capital_scheme (resolve Sample.cfg_capital_scheme "/x") =
    "HTTPS://caldav.example.orgHTTPS://caldav.example.org/x" /\
  resolve Sample.cfg_capital_scheme (resolve Sample.cfg_capital_scheme "/x") <>
    resolve Sample.cfg_capital_scheme "/x" /\
  resolve Fixture.cfg "HTTPS://example.org/cal/" <> "HTTPS://example.org/cal/".
Proof.
  split; [reflexivity|]. split; [reflexivity|].
  split; vm_compute; intros H; discriminate H.
Defined.

(** Scenario C: no uid supplied, the server answers 201. *)
Lemma create_put_outcome_witness :
  let st := fresh [Responded {| status_code := 201; text := ""; reason := "Created" |}] in
  fx_require_key None st = (Ok tt, st) /\
  run (fx_create Fixture.standup None) st =
    Ok {| created_uid := "0F1E2D3C4B5A69788796A5B4C3D2E1F0";
          created_href :=
            "/123/calendars/work/0F1E2D3C4B5A69788796A5B4C3D2E1F0.ics" |}.
Proof.
  intros st. split; [reflexivity|].
  destruct (@create_put_outcome Fixture.World Fixture.http Fixture.uuid4_hex
              Fixture.utcnow_stamp Fixture.cfg Fixture.standup None st eq_refl)
    as (_ & _ & _ & _ & _ & _ & H).
  destruct (H {| status_code := 201; text := ""; reason := "Created" |} eq_refl)
    as [Hok _].
  rewrite Hok; [reflexivity|]. right. left. reflexivity.
Defined.

(** The server answers 404 with an empty body: the detail of the error
    is the reason phrase, not the (empty) body text. *)
Lemma create_error_detail_counterexample :
  let st := fresh [Responded Fixture.not_found_empty] in
  ~ In (status_code Fixture.not_found_empty) [200; 201; 204] /\
  run (fx_create Fixture.standup None) st =
    Raise {| exc_status := 404; exc_detail := "Not Found" |} /\
  run (fx_create Fixture.standup None) st <>
    Raise {| exc_status := status_code Fixture.not_found_empty;
             exc_detail := text Fixture.not_found_empty |}.
Proof.
  intros st. split; [|split].
  - cbn. intros [H|[H|[H|[]]]]; discriminate.
  - vm_compute. reflexivity.
  - vm_compute. intros H. discriminate H.
Defined.

(** Scenario D with a body: 404 is an upstream error. *)
Lemma delete_outcome_witness :
  let st := fresh [Responded {| status_code := 404; text := "gone";
                                reason := "Not Found" |}] in
  fx_require_key None st = (Ok tt, st) /\
  run (fx_delete {| href := "/123/calendars/work/ABC.ics" |} None) st =
    Raise {| exc_status := 404; exc_detail := "gone" |}.
Proof.
  intros st. split; [reflexivity|].
  destruct (@delete_outcome Fixture.World Fixture.http Fixture.cfg
              {| href := "/123/calendars/work/ABC.ics" |} None st eq_refl)
    as [_ H].
  destruct (H {| status_code := 404; text := "gone"; reason := "Not Found" |}
              eq_refl) as [_ Herr].
  rewrite Herr; [reflexivity|].
  cbn. intros [E|[E|[E|[]]]]; discriminate.
Defined.

Lemma delete_error_detail_counterexample :
  let st := fresh [Responded Fixture.not_found_empty] in
  let d := {| href := "/123/calendars/work/ABC.ics" |} in
  ~ In (status_code Fixture.not_found_empty) [200; 202; 204] /\
  run (fx_delete d None) st =
    Raise {| exc_status := 404; exc_detail := "Not Found" |} /\
  run (fx_delete d None) st <>
    Raise {| exc_status := status_code Fixture.not_found_empty;
             exc_detail := text Fixture.not_found_empty |}.
Proof.
  intros st d. split; [|split].
  - cbn. intros [H|[H|[H|[]]]]; discriminate.
  - vm_compute. reflexivity.
  - vm_compute. intros H. discriminate H.
Defined.

(** Scenario B: of two responses, the one without a displayname is
    skipped. *)
Example calendars_items_scenario :
  calendars_items Fixture.doc_listing = [("/123/calendars/work/", "Work")].
Proof. vm_compute. reflexivity. Qed.

(** One response holds an [href] element and a [displayname] element, so
    M = N = 1 as the elements are counted, yet the listing is empty: the
    [href] element has no text. *)
Lemma calendars_blank_href_counterexample :
  length (responses Fixture.doc_blank_href) = 1%nat /\
  length (filter has_href_and_displayname (responses Fixture.doc_blank_href)) = 1%nat /\
  length (calendars_items Fixture.doc_blank_href) = 0%nat.
Proof. repeat split; vm_compute; reflexivity. Defined.

(** The same response holds an [href] element and a calendar-data
    document that is not empty, yet the event query drops it. *)
Lemma events_blank_href_counterexample :
  In Fixture.response_blank_href (responses Fixture.doc_blank_href) /\
  has_href_and_data Fixture.response_blank_href = true /\
  resp_calendar_data Fixture.response_blank_href = Some "BEGIN:VCALENDAR" /\
  events_items Fixture.doc_blank_href = [].
Proof.
  split; [vm_compute; left; reflexivity|].
  repeat split; vm_compute; reflexivity.
Defined.

(** The first listing request is refused with 400, the second one is
    answered. *)
Lemma calendars_two_attempts_witness :
  let st := fresh [Responded {| status_code := 400; text := "bad namespace";
                                reason := "Bad Request" |};
                   Fixture.multistatus "LISTING"] in
  fx_ensure_env st = (Ok tt, st) /\
  length (sent (after (fx_calendars_from "/123/calendars/") st)) = 2%nat /\
  run (fx_calendars_from "/123/calendars/") st =
    Ok {| listing_home := "/123/calendars/";
          listing_items := [("/123/calendars/work/", "Work")] |}.
Proof.
  intros st. split; [reflexivity|].
  destruct (@calendars_two_attempts Fixture.World Fixture.http Fixture.fromstring
              Fixture.cfg "/123/calendars/" st eq_refl) as [_ H].
  vm_compute dav_result in H. destruct H as [Hsent Hrun].
  rewrite Hsent, Hrun. split; reflexivity.
Defined.



(** C8, at a summary of two lines.  The document generated for a summary
    that holds a line feed contains a bare line feed: the summary is
    copied as it is, where the description has its line feeds escaped.
    The same event with the summary cut at the line feed gives a document
    without one. *)
Theorem summary_newline_bare_lf :
  let ev := Fixture.two_line_summary in
  let doc := event_ics ev (event_uid ev "") "20250101T080000Z" in
  has_bare_lf (summary ev) = true /\
  has_bare_lf doc = true /\
  has_bare_lf
    (event_ics {| calendar_href := calendar_href ev; summary := "Standup";
                  dtstart_z := dtstart_z ev; dtend_z := dtend_z ev;
                  description := Some (summary ev); uid := uid ev |}
       (event_uid ev "") "20250101T080000Z") = false.
Proof. repeat split; vm_compute; reflexivity. Qed.

(** * Further sample runs *)

(** A request without a key against a configuration with one. *)
Lemma wrong_key_sends_nothing_witness :
  let st := fresh [Fixture.multistatus "PRINCIPAL"] in
  API_KEY Sample.cfg_locked = Some "s3cret" /\ "s3cret" <> "" /\
  (None : option string) <> Some "s3cret" /\
  @calendars Fixture.World Fixture.http Fixture.fromstring Sample.cfg_locked None st =
    (Raise (@invalid_key), st).
Proof.
  intros st.
  assert (H1 : "s3cret" <> "") by discriminate.
  assert (H2 : (None : option string) <> Some "s3cret") by discriminate.
  split; [reflexivity|]. split; [exact H1|]. split; [exact H2|].
  exact (proj1 (proj2 (proj2 (proj2 (proj2
    (@wrong_key_sends_nothing Fixture.World Fixture.http Fixture.fromstring
       Fixture.uuid4_hex Fixture.utcnow_stamp Sample.cfg_locked None "s3cret" st
       eq_refl H1 H2)))))).
Defined.

(** Without an app password the listing is refused before any request. *)
Lemma missing_credentials_witness :
  let st := fresh [Fixture.multistatus "PRINCIPAL"] in
  @require_key Fixture.World Sample.cfg_no_password None st = (Ok tt, st) /\
  (opt_truthy (APPLE_ID Sample.cfg_no_password) = false \/
   opt_truthy (APPLE_PW Sample.cfg_no_password) = false) /\
  @calendars Fixture.World Fixture.http Fixture.fromstring
     Sample.cfg_no_password None st = (Raise (@misconfigured), st).
Proof.
  intros st. split; [reflexivity|]. split; [right; reflexivity|].
  exact (proj1 (proj2 (proj2 (proj2
    (@missing_credentials Fixture.World Fixture.http Fixture.fromstring
       Fixture.uuid4_hex Fixture.utcnow_stamp Sample.cfg_no_password None st
       eq_refl (or_intror eq_refl)))))).
Defined.

(** The principal is found at the first attempt, the home set with the
    next request; its href comes back trimmed. *)
Lemma home_after_principal_witness :
  let st := fresh [Fixture.multistatus "PRINCIPAL"; Fixture.multistatus "HOME"] in
  fx_require_key None st = (Ok tt, st) /\
  fx_ensure_env st = (Ok tt, st) /\
  run (@home Fixture.World Fixture.http Sample.fromstring Fixture.cfg None) st =
    Ok "/123/calendars/" /\
  map url (sent (after (@home Fixture.World Fixture.http Sample.fromstring
                          Fixture.cfg None) st)) =
    ["https://caldav.icloud.com/.well-known/caldav";
     "https://caldav.icloud.com/123/principal/"].
Proof.
  intros st. split; [reflexivity|]. split; [reflexivity|].
  unfold run, after.
  rewrite (@home_after_principal Fixture.World Fixture.http Sample.fromstring
             Fixture.cfg None st eq_refl eq_refl).
  split; vm_compute; reflexivity.
Defined.

Lemma calendars_after_home_witness :
  let st := fresh [Fixture.multistatus "PRINCIPAL"; Fixture.multistatus "HOME";
                   Fixture.multistatus "LISTING"] in
  fx_require_key None st = (Ok tt, st) /\
  run (@calendars Fixture.World Fixture.http Sample.fromstring Fixture.cfg None) st =
    Ok {| listing_home := "/123/calendars/";
          listing_items := [("/123/calendars/work/", "Work")] |}.
Proof.
  intros st. split; [reflexivity|].
  unfold run.
  rewrite (proj1 (@calendars_after_home Fixture.World Fixture.http Sample.fromstring
                    Fixture.cfg None st eq_refl)).
  vm_compute. reflexivity.
Defined.

(** A 302 is returned as it is; it is not an error for [dav]. *)
Lemma dav_outcome_witness :
  let r := {| status_code := 302; text := ""; reason := "Found" |} in
  let st := fresh [Responded r] in
  fx_ensure_env st = (Ok tt, st) /\
  run (@dav Fixture.World Fixture.http Fixture.cfg "PROPFIND"
         "https://caldav.icloud.com/" [("Depth", "0")] None true) st = Ok r.
Proof.
  intros r st. split; [reflexivity|].
  destruct (@dav_outcome Fixture.World Fixture.http Fixture.cfg "PROPFIND"
              "https://caldav.icloud.com/" [("Depth", "0")] None true st eq_refl)
    as (req & _ & _ & _ & _ & _ & _ & H).
  cbn in H. destruct H as [H _]. apply H. reflexivity.
Defined.

(** An event query: the response without calendar data is dropped. *)
Lemma events_run_witness :
  let st := fresh [Fixture.multistatus "EVENTS"] in
  fx_require_key None st = (Ok tt, st) /\
  fx_ensure_env st = (Ok tt, st) /\
  @events Fixture.World Fixture.http Sample.fromstring Fixture.cfg
    Sample.january None st =
    (Ok [("/123/calendars/work/ABC.ics", "BEGIN:VCALENDAR")],
     {| world := [];
        sent := [@report Fixture.cfg Sample.january] |}).
Proof.
  intros st. split; [reflexivity|]. split; [reflexivity|].
  rewrite (@events_run Fixture.World Fixture.http Sample.fromstring Fixture.cfg
             Sample.january None st eq_refl eq_refl).
  vm_compute. reflexivity.
Defined.

(** The generated uid, sent back with a second request, is kept. *)
Lemma returned_uid_is_stable_witness :
  let st := fresh [] in
  event_uid Fixture.standup (Fixture.uuid4_hex (world st)) <> "" /\
  event_uid (with_uid Fixture.standup (Some "0F1E2D3C4B5A69788796A5B4C3D2E1F0"))
            (Fixture.uuid4_hex (world st)) =
    "0F1E2D3C4B5A69788796A5B4C3D2E1F0".
Proof.
  intros st.
  assert (H : event_uid Fixture.standup (Fixture.uuid4_hex (world st)) <> "")
    by (vm_compute; discriminate).
  split; [exact H|].
  exact (proj1 (@returned_uid_is_stable Fixture.World Fixture.uuid4_hex
                  Fixture.utcnow_stamp Fixture.cfg Fixture.standup st st H)).
Defined.

(** Create, then delete the href that came back. *)
Lemma delete_reaches_created_witness :
  let st := fresh [Responded {| status_code := 201; text := ""; reason := "Created" |}] in
  let c := {| created_uid := "0F1E2D3C4B5A69788796A5B4C3D2E1F0";
              created_href :=
                "/123/calendars/work/0F1E2D3C4B5A69788796A5B4C3D2E1F0.ics" |} in
  fx_require_key None st = (Ok tt, st) /\
  (is_absolute (calendar_href Fixture.standup) = true \/
   Py.startswith (calendar_href Fixture.standup) "/" = true) /\
  run (fx_create Fixture.standup None) st = Ok c /\
  map url (sent (after (fx_delete {| href := created_href c |} None)
                       (after (fx_create Fixture.standup None) st))) =
    ["https://caldav.icloud.com/123/calendars/work/0F1E2D3C4B5A69788796A5B4C3D2E1F0.ics";
     "https://caldav.icloud.com/123/calendars/work/0F1E2D3C4B5A69788796A5B4C3D2E1F0.ics"].
Proof.
  intros st c. split; [reflexivity|]. split; [right; reflexivity|].
  split; [vm_compute; reflexivity|].
  rewrite (@delete_reaches_created Fixture.World Fixture.http Fixture.uuid4_hex
             Fixture.utcnow_stamp Fixture.cfg Fixture.standup None st
             (after (fx_create Fixture.standup None) st)
             (after (fx_create Fixture.standup None) st) c
             eq_refl (or_intror eq_refl) eq_refl).
  vm_compute. reflexivity.
Defined.

(** A description of two lines, everything else on one line each. *)
Lemma event_ics_no_bare_lf_witness :
  has_char Py.LF "ABC" = false /\
  has_char Py.LF (summary Fixture.standup_abc) = false /\
  has_char Py.LF (get (description Fixture.standup_abc)) = true /\
  has_bare_lf (event_ics Fixture.standup_abc "ABC" "20250101T080000Z") = false.
Proof.
  split; [reflexivity|]. split; [reflexivity|]. split; [reflexivity|].
  apply (@event_ics_no_bare_lf Fixture.standup_abc "ABC" "20250101T080000Z");
    reflexivity.
Defined.

(** The server cannot be reached. *)
Lemma transport_failure_witness :
  let st := fresh [] in
  fx_require_key None st = (Ok tt, st) /\
  run (fx_delete {| href := "/123/calendars/work/ABC.ics" |} None) st =
    Raise {| exc_status := 502;
             exc_detail := "Upstream DELETE failed: connection refused" |}.
Proof.
  intros st. split; [reflexivity|]. unfold run.
  rewrite (proj2 (@transport_failure Fixture.World Fixture.http Fixture.uuid4_hex
                    Fixture.utcnow_stamp Fixture.cfg None st "connection refused"
                    eq_refl)
             {| href := "/123/calendars/work/ABC.ics" |} eq_refl).
  reflexivity.
Defined.
